(** * pr-analyzer: the record normalizer and the monthly aggregator

    A shallow embedding of [src/pr_analyzer/analyzer.py]
    ([process_pr_data] and [calculate_monthly_statistics]) together with
    the parts of the Python runtime and of pandas that the two functions
    lean on, followed by the properties of the specification that concern
    them.

    Conventions of the embedding:
    - a Python exception is a value of [exception]; code that may raise
      lives in the [result] monad and raises in source order;
    - a Python [float] is an exact rational ([Q], kept reduced), the
      missing value (None / NaN) of a nullable column is [None];
    - a raw pull request is a record typed after the acquisition schema,
      every key of which may be missing from the mapping;
    - a [DataFrame] is its column labels together with its rows. *)

From Stdlib Require Import ZArith QArith Qreduction String Ascii List Bool Lia.
From Stdlib Require Import Sorting.Sorted Sorting.Permutation.
From Stdlib Require Import DecimalString.
Import ListNotations.

Local Open Scope Z_scope.

(** ** Exceptions and the result monad *)

Inductive exception : Type :=
| KeyError (key : string)
| ValueError (what : string)
| TypeError (what : string)
| AttributeError (what : string)
| OverflowError
| ZeroDivisionError.

Inductive result (A : Type) : Type :=
| Ok (a : A)
| Raise (e : exception).

Arguments Ok {A} a.
Arguments Raise {A} e.

Definition bind {A B : Type} (c : result A) (k : A -> result B) : result B :=
  match c with
  | Ok a => k a
  | Raise e => Raise e
  end.

Declare Scope result_scope.
Delimit Scope result_scope with result.
Notation "x <- c ;; k" := (bind c (fun x => k))
  (at level 61, c at next level, right associativity) : result_scope.
Local Open Scope result_scope.

Definition raises {A : Type} (c : result A) : Prop :=
  exists e, c = Raise e.

Definition returns {A : Type} (c : result A) : Prop :=
  exists a, c = Ok a.

(** [m[key]] on a mapping whose entry for [key] may be missing. *)
Definition getitem {A : Type} (key : string) (entry : option A) : result A :=
  match entry with
  | Some a => Ok a
  | None => Raise (KeyError key)
  end.

(** ** Strings *)

(** [s.replace(old, new)] for a one-character [old]. *)
Fixpoint replace (old : ascii) (new : string) (s : string) : string :=
  match s with
  | EmptyString => EmptyString
  | String c rest =>
      if Ascii.eqb c old then (new ++ replace old new rest)%string
      else String c (replace old new rest)
  end.

Definition digit (n : Z) : ascii := ascii_of_nat (48 + Z.to_nat (n mod 10)).

(** The last [width] decimal digits of [n], zero padded. *)
Fixpoint zpad (width : nat) (n : Z) : string :=
  match width with
  | O => EmptyString
  | S w => (zpad w (n / 10) ++ String (digit n) EmptyString)%string
  end.

(** ** Dates and times

    A [datetime] is the reading of a wall clock, in microseconds counted
    from 1970-01-01T00:00:00 on that clock, with the zone the clock is
    in; [tzinfo = None] is a naive datetime. *)

Record timezone : Type := mktz { utcoffset : Z }.

Record datetime : Type := mkdt { wall : Z; tzinfo : option timezone }.

Definition usec_per_second : Z := 1000000.
Definition usec_per_hour : Z := 3600 * usec_per_second.
Definition usec_per_day : Z := 24 * usec_per_hour.

(** [timezone(timedelta(hours=h))] *)
Definition timezone_hours (h : Z) : timezone := mktz (h * usec_per_hour).

(** [DEFAULT_TIMEZONE = timezone(timedelta(hours=9))] *)
Definition DEFAULT_TIMEZONE : timezone := timezone_hours 9.

(** Proleptic Gregorian calendar: day number (0 = 1970-01-01) to
    (year, month, day) and back. *)
Definition civil_from_days (z : Z) : Z * Z * Z :=
  let z := z + 719468 in
  let era := z / 146097 in
  let doe := z - era * 146097 in
  let yoe := (doe - doe / 1460 + doe / 36524 - doe / 146096) / 365 in
  let doy := doe - (365 * yoe + yoe / 4 - yoe / 100) in
  let mp := (5 * doy + 2) / 153 in
  let d := doy - (153 * mp + 2) / 5 + 1 in
  let m := if mp <? 10 then mp + 3 else mp - 9 in
  let y := yoe + era * 400 in
  (if m <=? 2 then y + 1 else y, m, d).

Definition days_from_civil (y m d : Z) : Z :=
  let y := if m <=? 2 then y - 1 else y in
  let era := y / 400 in
  let yoe := y - era * 400 in
  let doy := (153 * (if 2 <? m then m - 3 else m + 9) + 2) / 5 + d - 1 in
  let doe := yoe * 365 + yoe / 4 - yoe / 100 + doy in
  era * 146097 + doe - 719468.

(** [datetime.min] and [datetime.max] (years 1 to 9999). *)
Definition datetime_min : Z := days_from_civil 1 1 1 * usec_per_day.
Definition datetime_max : Z := (days_from_civil 9999 12 31 + 1) * usec_per_day - 1.

(** Datetime arithmetic raises OverflowError outside [min, max]. *)
Definition in_datetime_range (w : Z) : result Z :=
  if (datetime_min <=? w) && (w <=? datetime_max) then Ok w
  else Raise OverflowError.

Definition year_of (dt : datetime) : Z :=
  let '(y, _, _) := civil_from_days (wall dt / usec_per_day) in y.

Definition month_of (dt : datetime) : Z :=
  let '(_, m, _) := civil_from_days (wall dt / usec_per_day) in m.

Definition day_of (dt : datetime) : Z :=
  let '(_, _, d) := civil_from_days (wall dt / usec_per_day) in d.

(** [dt.strftime("%Y-%m")]: the year on four digits, as the C library
    prints it for the years a pull request can carry. *)
Definition strftime_Y_m (dt : datetime) : string :=
  (zpad 4 (year_of dt) ++ "-" ++ zpad 2 (month_of dt))%string.

Definition format_offset (off : Z) : string :=
  let a := Z.abs off in
  let us := a mod usec_per_second in
  let ss := (a / usec_per_second) mod 60 in
  let sign := if off <? 0 then "-"%string else "+"%string in
  let seconds :=
    if (ss =? 0) && (us =? 0) then EmptyString
    else (":" ++ zpad 2 ss)%string in
  let fraction := if us =? 0 then EmptyString else ("." ++ zpad 6 us)%string in
  let hh := zpad 2 (a / usec_per_hour) in
  let mm := zpad 2 ((a / (60 * usec_per_second)) mod 60) in
  (sign ++ hh ++ ":" ++ mm ++ seconds ++ fraction)%string.

(** [dt.isoformat()] *)
Definition isoformat (dt : datetime) : string :=
  let t := wall dt mod usec_per_day in
  let us := t mod usec_per_second in
  let date :=
    (zpad 4 (year_of dt) ++ "-" ++ zpad 2 (month_of dt) ++ "-" ++ zpad 2 (day_of dt))%string in
  let hh := zpad 2 (t / usec_per_hour) in
  let mm := zpad 2 ((t / (60 * usec_per_second)) mod 60) in
  let ss := zpad 2 ((t / usec_per_second) mod 60) in
  let fraction := if us =? 0 then EmptyString else ("." ++ zpad 6 us)%string in
  let zone :=
    match tzinfo dt with
    | Some tz => format_offset (utcoffset tz)
    | None => EmptyString
    end in
  (date ++ "T" ++ hh ++ ":" ++ mm ++ ":" ++ ss ++ fraction ++ zone)%string.

(** The instant an aware datetime denotes, in microseconds of UTC. *)
Definition utc_of (w : Z) (tz : timezone) : Z := w - utcoffset tz.

(** Ordering of datetimes: two aware ones by instant, two naive ones by
    wall clock; mixing them raises. *)
Definition compare_operands (a b : datetime) : result (Z * Z) :=
  match tzinfo a, tzinfo b with
  | Some za, Some zb => Ok (utc_of (wall a) za, utc_of (wall b) zb)
  | None, None => Ok (wall a, wall b)
  | _, _ => Raise (TypeError "can't compare offset-naive and offset-aware datetimes")
  end.

(** [a >= b] *)
Definition dt_ge (a b : datetime) : result bool :=
  p <- compare_operands a b ;; Ok (snd p <=? fst p).

(** [a <= b] *)
Definition dt_le (a b : datetime) : result bool :=
  p <- compare_operands a b ;; Ok (fst p <=? snd p).

(** [(a - b)] as a timedelta, in microseconds. *)
Definition dt_sub (a b : datetime) : result Z :=
  match tzinfo a, tzinfo b with
  | Some za, Some zb => Ok (utc_of (wall a) za - utc_of (wall b) zb)
  | None, None => Ok (wall a - wall b)
  | _, _ => Raise (TypeError "can't subtract offset-naive and offset-aware datetimes")
  end.

(** ** Floats *)

(** [timedelta.total_seconds()] *)
Definition total_seconds (usec : Z) : Q := Qred (inject_Z usec / inject_Z usec_per_second).

(** [x / n] for a float [x] and a non-zero integer literal [n]. *)
Definition fdiv (x : Q) (n : Z) : Q := Qred (x / inject_Z n).

(** [a / b] on integers: true division. *)
Definition truediv (a b : Z) : result Q :=
  if b =? 0 then Raise ZeroDivisionError
  else Ok (Qred (inject_Z a / inject_Z b)).

(** ** Library functions taken as given

    [datetime.fromisoformat], the zone of the machine (which
    [astimezone] consults for a naive datetime) and [pandas.to_datetime]
    are not code of this repository and their exact behaviour varies
    with the interpreter and pandas versions; the embedding is
    parameterised by them. [None] stands for the call raising. *)

Class Runtime : Type := {
  fromisoformat : string -> option datetime;
  local_utcoffset : Z -> Z;
  to_datetime : list string -> option (list datetime);
  to_datetime_length :
    forall col ts, to_datetime col = Some ts -> length ts = length col
}.

(** ** Data model *)

(** A Python dict with string keys, in insertion order. *)
Definition dict (V : Type) : Type := list (string * V).

Fixpoint dict_get {V : Type} (d : dict V) (key : string) : option V :=
  match d with
  | [] => None
  | (k, v) :: rest => if String.eqb k key then Some v else dict_get rest key
  end.

(** [d[key] = v]: an existing key keeps its place, a new one goes last. *)
Fixpoint dict_set {V : Type} (d : dict V) (key : string) (v : V) : dict V :=
  match d with
  | [] => [(key, v)]
  | (k, w) :: rest =>
      if String.eqb k key then (k, v) :: rest else (k, w) :: dict_set rest key v
  end.

Definition dict_values {V : Type} (d : dict V) : list V := map snd d.

(** The raw pull request as the acquisition step hands it over: a
    mapping in which any key may be missing ([None]); [author] and
    [mergedAt] may also be present and null ([Some None]). *)
Module Raw.
Record t : Type := mk {
  number : option Z;
  title : option string;
  author : option (option (dict string));
  createdAt : option string;
  mergedAt : option (option string);
  state : option string;
  additions : option Z;
  deletions : option Z;
  changedFiles : option Z
}.
End Raw.

Record diff_stats : Type := mkdiff {
  additions : Z;
  deletions : Z;
  changed_files : Z;
  total_changes : Z
}.

(** The [pr_data] dict of the normalizer; [T] is the type of the
    [created_at] entry: a string in the dict, a timestamp in the frame. *)
Record pr_data (T : Type) : Type := mkpr {
  number : Z;
  title : string;
  author : string;
  created_at : T;
  merged_at : option string;
  state : string;
  month : string;
  year : Z;
  time_to_merge_hours : option Q;
  time_to_merge_days : option Q;
  diff : option diff_stats
}.

Arguments mkpr {T}.
Arguments number {T}.
Arguments title {T}.
Arguments author {T}.
Arguments created_at {T}.
Arguments merged_at {T}.
Arguments state {T}.
Arguments month {T}.
Arguments year {T}.
Arguments time_to_merge_hours {T}.
Arguments time_to_merge_days {T}.
Arguments diff {T}.

Definition with_created_at {T U : Type} (d : pr_data T) (c : U) : pr_data U :=
  mkpr (number d) (title d) (author d) c (merged_at d) (state d) (month d)
       (year d) (time_to_merge_hours d) (time_to_merge_days d) (diff d).

Definition base_keys : list string :=
  ["number"; "title"; "author"; "created_at"; "merged_at"; "state"; "month";
   "year"; "time_to_merge_hours"; "time_to_merge_days"]%string.

Definition diff_keys : list string :=
  ["additions"; "deletions"; "changed_files"; "total_changes"]%string.

(** The keys of a [pr_data] dict, in insertion order. *)
Definition pr_keys {T : Type} (d : pr_data T) : list string :=
  base_keys ++ match diff d with Some _ => diff_keys | None => [] end.

(** ** Data frames *)

Record DataFrame (R : Type) : Type := mkframe {
  columns : list string;
  rows : list R
}.

Arguments mkframe {R}.
Arguments columns {R}.
Arguments rows {R}.

Definition has_label (label : string) (labels : list string) : bool :=
  existsb (String.eqb label) labels.

(** Labels of [ks] not yet in [seen], appended to [seen]. *)
Definition add_labels (seen ks : list string) : list string :=
  seen ++ filter (fun k => negb (has_label k seen)) ks.

(** [pd.DataFrame(records)] for a list of dicts: the columns are the
    keys in order of first appearance (none at all for an empty list), a
    key missing from a dict leaves a missing cell. *)
Definition DataFrame_of_records {R : Type} (keys : R -> list string)
    (records : list R) : DataFrame R :=
  mkframe (fold_left add_labels (map keys records) []) records.

(** [df[label]]: the cells of a column, KeyError for an unknown label. *)
Definition column {R A : Type} (df : DataFrame R) (label : string)
    (cell : R -> A) : result (list A) :=
  if has_label label (columns df) then Ok (map cell (rows df))
  else Raise (KeyError label).

(** [df[mask]]: the rows whose mask entry is true. *)
Fixpoint select {R : Type} (rs : list R) (mask : list bool) : list R :=
  match rs, mask with
  | r :: rs', b :: mask' => if b then r :: select rs' mask' else select rs' mask'
  | _, _ => []
  end.

Definition boolean_index {R : Type} (df : DataFrame R) (mask : list bool) : DataFrame R :=
  mkframe (columns df) (select (rows df) mask).

(** [len(df)] *)
Definition len {R : Type} (df : DataFrame R) : nat := length (rows df).

(** ** The record normalizer: [process_pr_data] *)

Section Normalizer.

Context {RT : Runtime}.

(** [dt.astimezone(tz)]: same instant, read on the clock of [tz]; a
    naive [dt] is taken to be in the zone of the machine. *)
Definition astimezone (dt : datetime) (tz : timezone) : result datetime :=
  let off :=
    match tzinfo dt with
    | Some z => utcoffset z
    | None => local_utcoffset (wall dt)
    end in
  utc <- in_datetime_range (wall dt - off) ;;
  w <- in_datetime_range (utc + utcoffset tz) ;;
  Ok (mkdt w (Some tz)).

(** [datetime.fromisoformat(s.replace("Z", "+00:00")).astimezone(tz)] *)
Definition parse_instant (s : string) (tz : timezone) : result datetime :=
  match fromisoformat (replace "Z" "+00:00" s) with
  | Some dt => astimezone dt tz
  | None => Raise (ValueError "Invalid isoformat string")
  end.

(** [(cutoff_date is None or created_at >= cutoff_date) and
     (end_date is None or created_at <= end_date)], left to right with
    short circuit. *)
Definition date_filter (cutoff_date end_date : option datetime)
    (created : datetime) : result bool :=
  after <- match cutoff_date with
           | None => Ok true
           | Some c => dt_ge created c
           end ;;
  if after then
    match end_date with
    | None => Ok true
    | Some e => dt_le created e
    end
  else Ok false.

(** Truth value of [pr["author"]]: None and the empty mapping are false. *)
Definition author_truthy (a : option (dict string)) : bool :=
  match a with
  | Some (_ :: _) => true
  | _ => false
  end.

(** Truth value of [pr["mergedAt"]]: None and the empty string are false. *)
Definition mergedAt_truthy (m : option string) : bool :=
  match m with
  | Some (String _ _) => true
  | _ => false
  end.

(** [a["login"]] on the value of [pr["author"]]. *)
Definition author_subscript (a : option (dict string)) (key : string)
    : result string :=
  match a with
  | Some d => getitem key (dict_get d key)
  | None => Raise (TypeError "'NoneType' object is not subscriptable")
  end.

(** [pr["author"]["login"] if pr["author"] else "unknown"] *)
Definition author_login (pr : Raw.t) : result string :=
  a <- getitem "author" (Raw.author pr) ;;
  if author_truthy a then author_subscript a "login"
  else Ok "unknown"%string.

(** [datetime.fromisoformat(m.replace("Z", "+00:00")).astimezone(tz)] on
    the value of [pr["mergedAt"]]. *)
Definition parse_mergedAt (m : option string) (tz : timezone) : result datetime :=
  match m with
  | Some s => parse_instant s tz
  | None => Raise (AttributeError "'NoneType' object has no attribute 'replace'")
  end.

(** The merge part of the loop body: [(merged_at, hours, days)]. *)
Definition merge_fields (pr : Raw.t) (tz : timezone) (created : datetime)
    : result (option string * option Q * option Q) :=
  m <- getitem "mergedAt" (Raw.mergedAt pr) ;;
  if mergedAt_truthy m then
    merged <- parse_mergedAt m tz ;;
    delta <- dt_sub merged created ;;
    let time_to_merge_hours := fdiv (total_seconds delta) 3600 in
    Ok (Some (isoformat merged), Some time_to_merge_hours,
        Some (fdiv time_to_merge_hours 24))
  else Ok (None, None, None).

(** The diff part of the loop body. *)
Definition diff_fields (pr : Raw.t) : result (option diff_stats) :=
  match Raw.additions pr with
  | Some a =>
      d <- getitem "deletions" (Raw.deletions pr) ;;
      c <- getitem "changedFiles" (Raw.changedFiles pr) ;;
      Ok (Some (mkdiff a d c (a + d)))
  | None => Ok None
  end.

(** The dict built for a record that passed the date filter. *)
Definition build_pr_data (pr : Raw.t) (tz : timezone) (created : datetime)
    : result (pr_data string) :=
  n <- getitem "number" (Raw.number pr) ;;
  t <- getitem "title" (Raw.title pr) ;;
  a <- author_login pr ;;
  s <- getitem "state" (Raw.state pr) ;;
  mf <- merge_fields pr tz created ;;
  df <- diff_fields pr ;;
  Ok (mkpr n t a (isoformat created) (fst (fst mf)) s (strftime_Y_m created)
           (year_of created) (snd (fst mf)) (snd mf) df).

(** [created_at] of one record, as the loop computes it. *)
Definition created_at_of (pr : Raw.t) (tz : timezone) : result datetime :=
  s <- getitem "createdAt" (Raw.createdAt pr) ;;
  parse_instant s tz.

(** One turn of the loop: [None] when the date filter drops the record. *)
Definition normalize_pr (cutoff_date end_date : option datetime)
    (tz : timezone) (pr : Raw.t) : result (option (pr_data string)) :=
  created <- created_at_of pr tz ;;
  keep <- date_filter cutoff_date end_date created ;;
  if keep then
    d <- build_pr_data pr tz created ;; Ok (Some d)
  else Ok None.

(** The loop: [filtered_prs] after the last turn. *)
Fixpoint filter_prs (cutoff_date end_date : option datetime)
    (tz : timezone) (prs : list Raw.t) : result (list (pr_data string)) :=
  match prs with
  | [] => Ok []
  | pr :: rest =>
      r <- normalize_pr cutoff_date end_date tz pr ;;
      rs <- filter_prs cutoff_date end_date tz rest ;;
      Ok match r with
         | Some d => d :: rs
         | None => rs
         end
  end.

(** [df["created_at"] = values] on a frame that has the column. *)
Definition assign_created_at {T U : Type} (df : DataFrame (pr_data T))
    (values : list U) : DataFrame (pr_data U) :=
  mkframe (columns df)
          (map (fun p => with_created_at (fst p) (snd p)) (combine (rows df) values)).

Definition process_pr_data (prs : list Raw.t)
    (cutoff_date end_date : option datetime) (tz : timezone)
    : result (DataFrame (pr_data datetime)) :=
  filtered_prs <- filter_prs cutoff_date end_date tz prs ;;
  let df := DataFrame_of_records pr_keys filtered_prs in
  col <- column df "created_at" created_at ;;
  match to_datetime col with
  | Some stamps => Ok (assign_created_at df stamps)
  | None => Raise (ValueError "to_datetime")
  end.

End Normalizer.

(** ** Series reductions of pandas *)

(** Insertion sort by a boolean order; with pairwise distinct keys every
    sorting algorithm returns this list. *)
Fixpoint insert_by {A : Type} (le : A -> A -> bool) (x : A) (l : list A) : list A :=
  match l with
  | [] => [x]
  | y :: rest => if le x y then x :: y :: rest else y :: insert_by le x rest
  end.

Fixpoint sort_by {A : Type} (le : A -> A -> bool) (l : list A) : list A :=
  match l with
  | [] => []
  | x :: rest => insert_by le x (sort_by le rest)
  end.

(** The cells of a series that are not missing. *)
Fixpoint dropna {A : Type} (cells : list (option A)) : list A :=
  match cells with
  | [] => []
  | Some a :: rest => a :: dropna rest
  | None :: rest => dropna rest
  end.

(** [series.notna()] *)
Definition notna {A : Type} (cells : list (option A)) : list bool :=
  map (fun c => match c with Some _ => true | None => false end) cells.

(** [series.unique()]: the distinct values in order of first appearance. *)
Fixpoint unique (values : list string) : list string :=
  match values with
  | [] => []
  | v :: rest => v :: filter (fun w => negb (String.eqb w v)) (unique rest)
  end.

(** [series.nunique()] *)
Definition nunique (values : list string) : nat := length (unique values).

Definition Qsum (xs : list Q) : Q := fold_right Qplus 0%Q xs.

(** [series.mean()]: the missing cells are skipped, NaN ([None]) when
    nothing is left. *)
Definition mean (cells : list (option Q)) : option Q :=
  match dropna cells with
  | [] => None
  | x :: xs =>
      Some (Qred (Qsum (x :: xs) / inject_Z (Z.of_nat (length (x :: xs)))))
  end.

(** [series.median()] of an integer column: the missing cells are
    skipped, NaN when nothing is left; otherwise the mean of the cells
    at positions [(n-1)/2] and [n/2] of the sorted values. *)
Definition median (cells : list (option Z)) : option Q :=
  let sorted := sort_by Z.leb (dropna cells) in
  let n := length sorted in
  match sorted with
  | [] => None
  | _ :: _ =>
      Some (Qred (inject_Z (nth ((n - 1) / 2) sorted 0 + nth (n / 2) sorted 0)
                  / inject_Z 2))
  end.

(** [df.sort_values(label)] on a column of strings, ascending. *)
Definition sort_values {R : Type} (df : DataFrame R) (label : string)
    (key : R -> string) : result (DataFrame R) :=
  if has_label label (columns df) then
    Ok (mkframe (columns df)
                (sort_by (fun a b => String.leb (key a) (key b)) (rows df)))
  else Raise (KeyError label).

(** ** The monthly aggregator: [calculate_monthly_statistics] *)

Record median_stats : Type := mkmedians {
  median_total_changes : option Q;
  median_changed_files : option Q
}.

(** The [stats] dict of one month; [medians] is [None] when the two
    median keys are not set. *)
Module Stats.
Record t : Type := mk {
  month : string;
  merged_pr_count : nat;
  avg_time_to_merge_hours : option Q;
  avg_time_to_merge_days : option Q;
  unique_authors : nat;
  avg_prs_per_person : Q;
  medians : option median_stats
}.
End Stats.

Definition stats_keys (s : Stats.t) : list string :=
  ["month"; "merged_pr_count"; "avg_time_to_merge_hours";
   "avg_time_to_merge_days"; "unique_authors"; "avg_prs_per_person"]%string
  ++ match Stats.medians s with
     | Some _ => ["median_total_changes"; "median_changed_files"]%string
     | None => []
     end.

(** [merged_pr_count / unique_authors if unique_authors > 0 else 0] *)
Definition prs_per_person (merged_pr_count unique_authors : nat) : result Q :=
  if (0 <? unique_authors)%nat then
    truediv (Z.of_nat merged_pr_count) (Z.of_nat unique_authors)
  else Ok 0%Q.

Section Aggregator.

Context {T : Type}.

Definition total_changes_cell (r : pr_data T) : option Z :=
  option_map total_changes (diff r).

Definition changed_files_cell (r : pr_data T) : option Z :=
  option_map changed_files (diff r).

(** [df_merged[df_merged["month"] == month]] *)
Definition month_frame (df_merged : DataFrame (pr_data T)) (m : string)
    : result (DataFrame (pr_data T)) :=
  months <- column df_merged "month" month ;;
  Ok (boolean_index df_merged (map (fun x => String.eqb x m) months)).

(** The median keys, set when the frame has a [total_changes] column. *)
Definition month_medians (month_prs : DataFrame (pr_data T))
    : result (option median_stats) :=
  if has_label "total_changes" (columns month_prs) then
    tc <- column month_prs "total_changes" total_changes_cell ;;
    cf <- column month_prs "changed_files" changed_files_cell ;;
    Ok (Some (mkmedians (median tc) (median cf)))
  else Ok None.

(** The body of the loop over the months. *)
Definition month_statistics (df_merged : DataFrame (pr_data T)) (m : string)
    : result Stats.t :=
  month_prs <- month_frame df_merged m ;;
  let merged_pr_count := len month_prs in
  hours <- column month_prs "time_to_merge_hours" time_to_merge_hours ;;
  let avg_hours := mean hours in
  hours_again <- column month_prs "time_to_merge_hours" time_to_merge_hours ;;
  let avg_days := option_map (fun h => fdiv h 24) (mean hours_again) in
  authors <- column month_prs "author" author ;;
  let unique_authors := nunique authors in
  per_person <- prs_per_person merged_pr_count unique_authors ;;
  med <- month_medians month_prs ;;
  Ok (Stats.mk m merged_pr_count avg_hours avg_days unique_authors per_person med).

Fixpoint monthly_loop (df_merged : DataFrame (pr_data T))
    (months : list string) (monthly_data : dict Stats.t)
    : result (dict Stats.t) :=
  match months with
  | [] => Ok monthly_data
  | m :: rest =>
      stats <- month_statistics df_merged m ;;
      monthly_loop df_merged rest (dict_set monthly_data m stats)
  end.

(** [df[df["time_to_merge_days"].notna()]] *)
Definition merged_subset (df : DataFrame (pr_data T))
    : result (DataFrame (pr_data T)) :=
  days <- column df "time_to_merge_days" time_to_merge_days ;;
  Ok (boolean_index df (notna days)).

(** [.copy()] and [.reset_index(drop=True)] change nothing here: a
    frame is a value and carries no index. *)
Definition calculate_monthly_statistics (df : DataFrame (pr_data T))
    : result (DataFrame Stats.t) :=
  df_merged <- merged_subset df ;;
  months <- column df_merged "month" month ;;
  monthly_data <- monthly_loop df_merged (unique months) [] ;;
  let monthly_df := DataFrame_of_records stats_keys (dict_values monthly_data) in
  sort_values monthly_df "month" Stats.month.

End Aggregator.

(** ** A reference runtime

    An executable instance of [Runtime] for running the embedding: it
    reads timestamps of the shape [YYYY-MM-DDTHH:MM:SS[.ffffff][+HH:MM]]
    (what the hosting service emits once [Z] is replaced, and what
    [isoformat] prints for whole-minute offsets), and places the machine
    in UTC. *)

Definition digit_value (c : ascii) : option Z :=
  let n := Z.of_nat (nat_of_ascii c) in
  if (48 <=? n) && (n <=? 57) then Some (n - 48) else None.

Fixpoint take_digits (n : nat) (acc : Z) (s : string) : option (Z * string) :=
  match n with
  | O => Some (acc, s)
  | S n' =>
      match s with
      | String c rest =>
          match digit_value c with
          | Some v => take_digits n' (10 * acc + v) rest
          | None => None
          end
      | EmptyString => None
      end
  end.

Definition expect (c : ascii) (s : string) : option string :=
  match s with
  | String c' rest => if Ascii.eqb c' c then Some rest else None
  | EmptyString => None
  end.

Definition obind {A B : Type} (c : option A) (k : A -> option B) : option B :=
  match c with
  | Some a => k a
  | None => None
  end.

Definition parse_offset (s : string) : option (option timezone) :=
  match s with
  | EmptyString => Some None
  | String c rest =>
      obind (if Ascii.eqb c "+" then Some 1
             else if Ascii.eqb c "-" then Some (-1) else None) (fun sign =>
      obind (take_digits 2 0 rest) (fun '(hh, s1) =>
      obind (expect ":" s1) (fun s2 =>
      obind (take_digits 2 0 s2) (fun '(mm, s3) =>
      match s3 with
      | EmptyString =>
          if (hh <? 24) && (mm <? 60)
          then Some (Some (mktz (sign * (hh * usec_per_hour + mm * 60 * usec_per_second))))
          else None
      | String _ _ => None
      end))))
  end.

Definition parse_fraction (s : string) : option (Z * string) :=
  match s with
  | String "."%char rest => take_digits 6 0 rest
  | _ => Some (0, s)
  end.

Definition reference_fromisoformat (s : string) : option datetime :=
  obind (take_digits 4 0 s) (fun '(y, s) =>
  obind (expect "-" s) (fun s =>
  obind (take_digits 2 0 s) (fun '(m, s) =>
  obind (expect "-" s) (fun s =>
  obind (take_digits 2 0 s) (fun '(d, s) =>
  obind (expect "T" s) (fun s =>
  obind (take_digits 2 0 s) (fun '(hh, s) =>
  obind (expect ":" s) (fun s =>
  obind (take_digits 2 0 s) (fun '(mm, s) =>
  obind (expect ":" s) (fun s =>
  obind (take_digits 2 0 s) (fun '(ss, s) =>
  obind (parse_fraction s) (fun '(us, s) =>
  obind (parse_offset s) (fun tz =>
  let days := days_from_civil y m d in
  let valid_date :=
    match civil_from_days days with
    | (y', m', d') => (y' =? y) && (m' =? m) && (d' =? d) && (1 <=? y)
    end in
  if valid_date && (hh <? 24) && (mm <? 60) && (ss <? 60) then
    Some (mkdt (days * usec_per_day + hh * usec_per_hour
                + mm * 60 * usec_per_second + ss * usec_per_second + us) tz)
  else None))))))))))))).

(** Every cell must parse to an aware timestamp. *)
Fixpoint reference_to_datetime (col : list string) : option (list datetime) :=
  match col with
  | [] => Some []
  | s :: rest =>
      match reference_fromisoformat s with
      | Some (mkdt w (Some tz)) =>
          option_map (cons (mkdt w (Some tz))) (reference_to_datetime rest)
      | _ => None
      end
  end.

Lemma reference_to_datetime_length :
  forall col ts, reference_to_datetime col = Some ts -> length ts = length col.
Proof.
  induction col as [|s rest IH]; simpl; intros ts H.
  - injection H as <-. reflexivity.
  - destruct (reference_fromisoformat s) as [[w [tz|]]|]; try discriminate.
    destruct (reference_to_datetime rest) as [ts'|]; try discriminate.
    injection H as <-. simpl. f_equal. apply IH. reflexivity.
Qed.

Definition reference_runtime : Runtime :=
  {| fromisoformat := reference_fromisoformat;
     local_utcoffset := fun _ => 0;
     to_datetime := reference_to_datetime;
     to_datetime_length := reference_to_datetime_length |}.

(** ** Vocabulary of the specification *)

(** The instant a datetime denotes (the wall clock itself when naive). *)
Definition instant (dt : datetime) : Z :=
  match tzinfo dt with
  | Some tz => utc_of (wall dt) tz
  | None => wall dt
  end.

Definition aware (bound : option datetime) : Prop :=
  forall b, bound = Some b -> tzinfo b <> None.

(** The inclusion test as the specification words it. *)
Definition within (cutoff_date end_date : option datetime) (created : datetime) : bool :=
  match cutoff_date with
  | None => true
  | Some c => instant c <=? instant created
  end
  &&
  match end_date with
  | None => true
  | Some e => instant created <=? instant e
  end.

(** All entries of a normalized record but [created_at]. *)
Definition carried {T : Type} (d : pr_data T) : pr_data unit := with_created_at d tt.

Section NormalizerVocabulary.

Context {RT : Runtime}.

(** [row] is what the loop builds from [pr] in zone [tz]. *)
Definition normalized_from {T : Type} (tz : timezone) (pr : Raw.t)
    (row : pr_data T) : Prop :=
  exists created d,
    created_at_of pr tz = Ok created /\
    build_pr_data pr tz created = Ok d /\
    carried row = carried d.

(** The record passes the date filter. *)
Definition kept (cutoff_date end_date : option datetime) (tz : timezone)
    (pr : Raw.t) : bool :=
  match created_at_of pr tz with
  | Ok created => within cutoff_date end_date created
  | Raise _ => false
  end.

End NormalizerVocabulary.

Section AggregatorVocabulary.

Context {T : Type}.

(** The record has a merge time: it belongs to the merged subset. *)
Definition is_merged (r : pr_data T) : bool :=
  match time_to_merge_days r with
  | Some _ => true
  | None => false
  end.

(** The merged subset of a frame, as a frame. *)
Definition merged_frame (df : DataFrame (pr_data T)) : DataFrame (pr_data T) :=
  mkframe (columns df) (filter is_merged (rows df)).

(** The merged records of month [m], in table order. *)
Definition merged_in_month (df : DataFrame (pr_data T)) (m : string)
    : list (pr_data T) :=
  filter (fun r => is_merged r && String.eqb (month r) m) (rows df).

End AggregatorVocabulary.

(** Ascending order of month keys, byte by byte. *)
Definition month_le (a b : Stats.t) : Prop :=
  String.leb (Stats.month a) (Stats.month b) = true.

(** ** Sample inputs *)

Definition login_of (name : string) : dict string := [("login"%string, name)].

(** Merged five hours after creation, by alice. *)
Definition pr_alice : Raw.t :=
  Raw.mk (Some 101) (Some "Add parser"%string) (Some (Some (login_of "alice")))
         (Some "2024-01-10T01:00:00Z"%string)
         (Some (Some "2024-01-10T06:00:00Z"%string))
         (Some "MERGED"%string) (Some 10) (Some 5) (Some 2).

(** Merged fifteen hours after creation, by bob. *)
Definition pr_bob : Raw.t :=
  Raw.mk (Some 102) (Some "Fix lexer"%string) (Some (Some (login_of "bob")))
         (Some "2024-01-20T03:00:00Z"%string)
         (Some (Some "2024-01-20T18:00:00Z"%string))
         (Some "MERGED"%string) (Some 30) (Some 10) (Some 4).

(** Still open, its author account deleted ([author] is null). *)
Definition pr_ghost : Raw.t :=
  Raw.mk (Some 103) (Some "Draft"%string) (Some None)
         (Some "2024-02-03T12:00:00Z"%string) (Some None)
         (Some "OPEN"%string) (Some 1) (Some 1) (Some 1).

(** Created on the last day of November in UTC, which is already
    December in the default zone; merged two days later, by alice. *)
Definition pr_carol : Raw.t :=
  Raw.mk (Some 104) (Some "Bump version"%string) (Some (Some (login_of "alice")))
         (Some "2023-11-30T16:00:00Z"%string)
         (Some (Some "2023-12-02T16:00:00Z"%string))
         (Some "MERGED"%string) (Some 3) (Some 3) (Some 1).

(** [pr_ghost] with the [author] key missing from the mapping. *)
Definition pr_no_author : Raw.t :=
  Raw.mk (Some 103) (Some "Draft"%string) None
         (Some "2024-02-03T12:00:00Z"%string) (Some None)
         (Some "OPEN"%string) (Some 1) (Some 1) (Some 1).

(** [pr_ghost] with the [mergedAt] key missing from the mapping. *)
Definition pr_no_mergedAt : Raw.t :=
  Raw.mk (Some 103) (Some "Draft"%string) (Some None)
         (Some "2024-02-03T12:00:00Z"%string) None
         (Some "OPEN"%string) (Some 1) (Some 1) (Some 1).

(** Midnight of a calendar day in zone [tz], as the command line builds
    its bounds. *)
Definition midnight (y m d : Z) (tz : timezone) : datetime :=
  mkdt (days_from_civil y m d * usec_per_day) (Some tz).

(** The value of a computation known to return. *)
Definition value_or {A : Type} (default : A) (c : result A) : A :=
  match c with
  | Ok a => a
  | Raise _ => default
  end.

Definition sample_table : DataFrame (pr_data datetime) :=
  value_or (mkframe [] [])
    (process_pr_data (RT := reference_runtime)
                     [pr_alice; pr_bob; pr_ghost; pr_carol]
                     None None DEFAULT_TIMEZONE).

Definition sample_prs : list Raw.t := [pr_alice; pr_bob; pr_ghost; pr_carol].

(** The bounds [2024-01-15, 2024-02-29] in the default zone. *)
Definition sample_cutoff : option datetime := Some (midnight 2024 1 15 DEFAULT_TIMEZONE).
Definition sample_end : option datetime := Some (midnight 2024 2 29 DEFAULT_TIMEZONE).

Definition range_table : DataFrame (pr_data datetime) :=
  value_or (mkframe [] [])
    (process_pr_data (RT := reference_runtime) sample_prs
                     sample_cutoff sample_end DEFAULT_TIMEZONE).

(** The monthly table of the sample table. *)
Definition sample_monthly : DataFrame Stats.t :=
  value_or (mkframe [] []) (calculate_monthly_statistics sample_table).

(** A table whose only record was never merged. *)
Definition unmerged_table : DataFrame (pr_data datetime) :=
  value_or (mkframe [] [])
    (process_pr_data (RT := reference_runtime) [pr_ghost] None None DEFAULT_TIMEZONE).

(** The table with no row and no column. *)
Definition empty_table : DataFrame (pr_data datetime) := mkframe [] [].

(** ** The acquisition client: [fetcher.py] *)

(** *** Regular expressions

    The fragment of Python's [re] syntax that the repository pattern
    uses: the two anchors, a literal character, a character class
    repeated one or more times, and concatenation. *)

Inductive regex : Type :=
| Caret
| Dollar
| Chr (c : ascii)
| PlusClass (member : ascii -> bool)
| Seq (r1 r2 : regex).

Definition newline : ascii := ascii_of_nat 10.

(** [$] without MULTILINE: at the end of the string, or just before a
    newline that ends the string. *)
Definition at_dollar (s : string) : bool :=
  match s with
  | EmptyString => true
  | String c EmptyString => Ascii.eqb c newline
  | String _ (String _ _) => false
  end.

(** One or more characters of the class, the longest run first, each
    shorter run tried when what follows does not match. *)
Fixpoint plus_loop (member : ascii -> bool) (k : nat -> string -> bool)
    (pos : nat) (s : string) : bool :=
  match s with
  | EmptyString => false
  | String c rest =>
      member c && (plus_loop member k (S pos) rest || k (S pos) rest)
  end.

(** Matching [r] at offset [pos], where [s] is what remains of the
    subject; [k] matches what follows [r]. *)
Fixpoint rmatch (r : regex) (pos : nat) (s : string)
    (k : nat -> string -> bool) : bool :=
  match r with
  | Caret => Nat.eqb pos 0 && k pos s
  | Dollar => at_dollar s && k pos s
  | Chr c =>
      match s with
      | String c' rest => Ascii.eqb c' c && k (S pos) rest
      | EmptyString => false
      end
  | PlusClass member => plus_loop member k pos s
  | Seq r1 r2 => rmatch r1 pos s (fun pos' s' => rmatch r2 pos' s' k)
  end.

(** [re.match(pattern, s)] as a truth value: a match starting at the
    beginning of [s]. *)
Definition re_match (pattern : regex) (s : string) : bool :=
  rmatch pattern 0 s (fun _ _ => true).

Definition char_between (lo hi c : ascii) : bool :=
  (nat_of_ascii lo <=? nat_of_ascii c)%nat && (nat_of_ascii c <=? nat_of_ascii hi)%nat.

Definition alphanumeric (c : ascii) : bool :=
  char_between "a" "z" c || char_between "A" "Z" c || char_between "0" "9" c.

(** [[a-zA-Z0-9_-]] *)
Definition owner_char (c : ascii) : bool :=
  alphanumeric c || Ascii.eqb c "_" || Ascii.eqb c "-".

(** [[a-zA-Z0-9_.-]] *)
Definition name_char (c : ascii) : bool :=
  alphanumeric c || Ascii.eqb c "_" || Ascii.eqb c "." || Ascii.eqb c "-".

(** [r"^[a-zA-Z0-9_-]+/[a-zA-Z0-9_.-]+$"] *)
Definition repo_pattern : regex :=
  Seq Caret (Seq (PlusClass owner_char)
            (Seq (Chr "/") (Seq (PlusClass name_char) Dollar))).

Definition validate_repo_format (repo : string) : result unit :=
  if re_match repo_pattern repo then Ok tt
  else Raise (ValueError ("Invalid repository format: '" ++ repo
                          ++ "'. Expected format: 'owner/repo' "
                          ++ "(e.g., 'octocat/hello-world')")%string).

(** *** Fetching *)

(** A record as the hosting service prints it: the raw pull request
    together with its [labels] entry, a list of mappings that may be
    missing. *)
Module Fetched.
Record t : Type := mk {
  labels : option (list (dict string));
  record : Raw.t
}.
End Fetched.

(** What [subprocess.run(cmd, check=False, capture_output=True,
    text=True, timeout=timeout)] can do. *)
Inductive run_outcome : Type :=
| Completed (returncode : Z) (stdout stderr : string)
| TimedOut.

Inductive fetch_exception : Type :=
| Python (e : exception)
| RuntimeError (what : string)
| TimeoutExpired
| JSONDecodeError.

Inductive fetched (A : Type) : Type :=
| Done (a : A)
| Failed (e : fetch_exception).

Arguments Done {A} a.
Arguments Failed {A} e.

(** The file [fetch_pr_data] writes: its path and the records dumped
    into it. *)
Record output : Type := mkoutput {
  output_path : string;
  written : list Fetched.t
}.

(** [str(n)] *)
Definition str_of_int (n : Z) : string := NilZero.string_of_int (Z.to_int n).

Definition base_fields : list string :=
  ["number"; "title"; "author"; "createdAt"; "mergedAt"; "state"; "labels"]%string.

Definition diff_fields_requested : list string :=
  ["additions"; "deletions"; "changedFiles"]%string.

(** The [gh] command line. *)
Definition gh_command (repo : string) (label : option string)
    (include_diff_stats : bool) (limit : Z) (state : string) : list string :=
  let fields :=
    base_fields ++ (if include_diff_stats then diff_fields_requested else []) in
  let head := ["gh"; "pr"; "list"; "--repo"]%string ++ [repo] in
  let label_filter :=
    match label with
    | Some l => ["--label"%string; l]
    | None => []
    end in
  let tail :=
    ["--state"%string; state; "--limit"%string; str_of_int limit;
     "--json"%string; String.concat "," fields] in
  head ++ label_filter ++ tail.

(** [label_obj.get("name") in exclude_set] *)
Definition label_excluded (exclude_set : list string) (label_obj : dict string) : bool :=
  match dict_get label_obj "name" with
  | Some name => existsb (String.eqb name) exclude_set
  | None => false
  end.

(** [any(label_obj.get("name") in exclude_set
         for label_obj in pr.get("labels", []))] *)
Definition has_excluded_label (exclude_set : list string) (pr : Fetched.t) : bool :=
  existsb (label_excluded exclude_set)
          match Fetched.labels pr with
          | Some ls => ls
          | None => []
          end.

(** The filter applied when [exclude_labels] is neither None nor empty. *)
Definition exclude_by_label (exclude_labels : option (list string))
    (data : list Fetched.t) : list Fetched.t :=
  match exclude_labels with
  | Some (l :: ls) =>
      filter (fun pr => negb (has_excluded_label (l :: ls) pr)) data
  | _ => data
  end.

Section Fetcher.

(** The two calls out of the program: running [gh], and [json.loads]
    on what it printed ([None]: the output is not the JSON expected). *)
Variable run : list string -> Z -> run_outcome.
Variable json_loads : string -> option (list Fetched.t).

Definition fetch_pr_data (repo : string) (label : option string)
    (exclude_labels : option (list string)) (output_file : option string)
    (include_diff_stats : bool) (limit : Z) (state : string) (timeout : Z)
    : fetched output :=
  match validate_repo_format repo with
  | Raise e => Failed (Python e)
  | Ok _ =>
      let output_file :=
        match output_file with
        | Some f => f
        | None =>
            ("pr_data_" ++ (if include_diff_stats then "with_diff" else "raw")
             ++ ".json")%string
        end in
      let cmd := gh_command repo label include_diff_stats limit state in
      match run cmd timeout with
      | TimedOut => Failed TimeoutExpired
      | Completed returncode stdout stderr =>
          if negb (returncode =? 0) then
            Failed (RuntimeError ("Failed to fetch PR data: " ++ stderr)%string)
          else
            match json_loads stdout with
            | None => Failed JSONDecodeError
            | Some data =>
                Done (mkoutput output_file (exclude_by_label exclude_labels data))
            end
      end
  end.

End Fetcher.

(** Every character of [s] is in the class. *)
Fixpoint string_forall (member : ascii -> bool) (s : string) : bool :=
  match s with
  | EmptyString => true
  | String c rest => member c && string_forall member rest
  end.

(** The names of [exclude_labels], none when the option is None. *)
Definition excluded_names (exclude_labels : option (list string)) : list string :=
  match exclude_labels with
  | Some names => names
  | None => []
  end.

(** ** The command line: [cli.py] *)

(** [timedelta(hours=h)], in microseconds: OverflowError beyond
    999999999 days. *)
Definition timedelta_hours (h : Z) : result Z :=
  if 999999999 <? Z.abs (h / 24) then Raise OverflowError
  else Ok (h * usec_per_hour).

(** [timezone(offset)]: the offset must lie strictly between minus and
    plus 24 hours. *)
Definition make_timezone (offset : Z) : result timezone :=
  if (- usec_per_day <? offset) && (offset <? usec_per_day) then Ok (mktz offset)
  else Raise (ValueError "offset must be a timedelta strictly between -timedelta(hours=24) and timedelta(hours=24).").

(** [timezone(timedelta(hours=tz_offset))] *)
Definition parse_timezone (tz_offset : Z) : result timezone :=
  offset <- timedelta_hours tz_offset ;;
  make_timezone offset.

Section CommandLine.

Context {RT : Runtime}.

(** [datetime.strptime(s, "%Y-%m-%d")] as the (year, month, day) it
    reads, [None] when it raises; the datetime it returns is that day at
    00:00:00. Like [fromisoformat] it is taken as given. *)
Variable strptime_Y_m_d : string -> option (Z * Z * Z).

(** [datetime.strptime(s, "%Y-%m-%d").replace(tzinfo=tz)] when the
    option was given and is not the empty string, None otherwise. *)
Definition parse_bound (s : option string) (tz : timezone)
    : result (option datetime) :=
  match s with
  | Some (String c rest) =>
      match strptime_Y_m_d (String c rest) with
      | Some (y, m, d) => Ok (Some (midnight y m d tz))
      | None => Raise (ValueError "time data does not match format '%Y-%m-%d'")
      end
  | _ => Ok None
  end.

(** What [analyze] and [run] do with the loaded records, up to the two
    frames they hand to [save_statistics]. *)
Definition statistics_for (prs : list Raw.t) (cutoff_date end_date : option string)
    (tz : timezone)
    : result (DataFrame Stats.t * DataFrame (pr_data datetime)) :=
  cutoff <- parse_bound cutoff_date tz ;;
  end_ <- parse_bound end_date tz ;;
  df <- process_pr_data prs cutoff end_ tz ;;
  monthly_stats <- calculate_monthly_statistics df ;;
  Ok (monthly_stats, df).

(** The [analyze] command on the records of its input file; an
    exception makes the command abort. *)
Definition analyze (prs : list Raw.t) (cutoff_date end_date : option string)
    (timezone : Z)
    : result (DataFrame Stats.t * DataFrame (pr_data datetime)) :=
  tz <- parse_timezone timezone ;;
  statistics_for prs cutoff_date end_date tz.

Variable run : list string -> Z -> run_outcome.
Variable json_loads : string -> option (list Fetched.t).

(** The [run] command up to the two frames: fetch into [data_file],
    load the file again (the records written), then as [analyze]. *)
Definition run_pipeline (repo : string) (label : option string)
    (exclude_label : list string) (data_file : string)
    (cutoff_date end_date : option string) (limit : Z) (state : string)
    (timeout : Z) (timezone : Z)
    : fetched (DataFrame Stats.t * DataFrame (pr_data datetime)) :=
  match parse_timezone timezone with
  | Raise e => Failed (Python e)
  | Ok tz =>
      match fetch_pr_data run json_loads repo label (Some exclude_label)
                          (Some data_file) true limit state timeout with
      | Failed e => Failed e
      | Done out =>
          let prs := map Fetched.record (written out) in
          match statistics_for prs cutoff_date end_date tz with
          | Ok frames => Done frames
          | Raise e => Failed (Python e)
          end
      end
  end.

End CommandLine.

(** *** Sample runs of the commands *)

(** Reads [YYYY-MM-DD] with padded fields. *)
Definition reference_strptime (s : string) : option (Z * Z * Z) :=
  obind (take_digits 4 0 s) (fun '(y, s) =>
  obind (expect "-" s) (fun s =>
  obind (take_digits 2 0 s) (fun '(m, s) =>
  obind (expect "-" s) (fun s =>
  obind (take_digits 2 0 s) (fun '(d, s) =>
  match s with
  | EmptyString =>
      match civil_from_days (days_from_civil y m d) with
      | (y', m', d') =>
          if (y' =? y) && (m' =? m) && (d' =? d) && (1 <=? y) then Some (y, m, d)
          else None
      end
  | String _ _ => None
  end))))).

Definition label_named (name : string) : dict string := [("name"%string, name)].

(** What [gh] printed: alice's pull request labelled [bug], bob's
    labelled [dependencies], carol's without a [labels] entry. *)
Definition sample_fetched : list Fetched.t :=
  [Fetched.mk (Some [label_named "bug"]) pr_alice;
   Fetched.mk (Some [label_named "dependencies"]) pr_bob;
   Fetched.mk None pr_carol].

Definition sample_gh (cmd : list string) (timeout : Z) : run_outcome :=
  Completed 0 "[...]" "".

Definition sample_json_loads (stdout : string) : option (list Fetched.t) :=
  Some sample_fetched.

Definition sample_output : output :=
  mkoutput "out/pr_data_with_diff.json"
           [Fetched.mk (Some [label_named "bug"]) pr_alice;
            Fetched.mk None pr_carol].

(** The frames of [analyze] on the sample records, from 2024-01-01 to
    2024-01-20 in the zone UTC+9. *)
Definition sample_analysis : DataFrame Stats.t * DataFrame (pr_data datetime) :=
  value_or (mkframe [] [], mkframe [] [])
    (analyze (RT := reference_runtime) reference_strptime sample_prs
             (Some "2024-01-01"%string) (Some "2024-01-20"%string) 9).

(** The frames of [run] on the sample output of [gh]. *)
Definition sample_run : DataFrame Stats.t * DataFrame (pr_data datetime) :=
  match run_pipeline (RT := reference_runtime) reference_strptime
          sample_gh sample_json_loads "octocat/hello-world" None
          ["dependencies"%string] "out/pr_data_with_diff.json" None None
          10000 "merged" 600 9 with
  | Done frames => frames
  | Failed _ => (mkframe [] [], mkframe [] [])
  end.



(** *** Further sample inputs *)

(** [pr_bob] as fetched with the [additions] field but without
    [deletions] and [changedFiles]. *)
Definition pr_partial_size : Raw.t :=
  Raw.mk (Some 105) (Some "Fix lexer"%string) (Some (Some (login_of "bob")))
         (Some "2024-01-20T03:00:00Z"%string)
         (Some (Some "2024-01-20T18:00:00Z"%string))
         (Some "MERGED"%string) (Some 30) None None.

(** A record whose [createdAt] is not a timestamp. *)
Definition pr_bad_date : Raw.t :=
  Raw.mk (Some 106) (Some "Fix lexer"%string) (Some (Some (login_of "bob")))
         (Some "yesterday"%string) (Some None)
         (Some "OPEN"%string) (Some 30) (Some 10) (Some 4).


(** A record normalized without bounds in the zone of [h] hours. *)
Definition normalized_in (h : Z) (pr : Raw.t) : option (pr_data string) :=
  value_or None
    (normalize_pr (RT := reference_runtime) None None (timezone_hours h) pr).

(** The creation time of a sample record on the clock of the default zone. *)
Definition created_in_default_zone (pr : Raw.t) : datetime :=
  value_or (midnight 1970 1 1 DEFAULT_TIMEZONE)
    (created_at_of (RT := reference_runtime) pr DEFAULT_TIMEZONE).
(** * Properties *)

(** ** The result monad *)

Lemma bind_Ok {A B : Type} (c : result A) (k : A -> result B) (b : B) :
  bind c k = Ok b -> exists a, c = Ok a /\ k a = Ok b.
Proof.
  destruct c as [a|e]; simpl; intros H; [eauto | discriminate].
Qed.

Lemma bind_Raise_inv {A B : Type} (c : result A) (k : A -> result B) (e : exception) :
  bind c k = Raise e -> c = Raise e \/ exists a, c = Ok a /\ k a = Raise e.
Proof. destruct c as [a|e']; simpl; intros H; [eauto | left; congruence]. Qed.

Lemma getitem_Ok {A : Type} (key : string) (entry : option A) (a : A) :
  getitem key entry = Ok a -> entry = Some a.
Proof. destruct entry; simpl; congruence. Qed.

(** Splits a hypothesis [x <- c ;; k = Ok b] into its two steps. *)
Ltac bind_inv H :=
  let a := fresh "a" in
  let Ha := fresh "E" in
  apply bind_Ok in H; destruct H as (a & Ha & H).

(** ** Column labels *)

Lemma has_label_In (label : string) (labels : list string) :
  has_label label labels = true <-> In label labels.
Proof.
  unfold has_label. rewrite existsb_exists. split.
  - intros (x & Hx & E). apply String.eqb_eq in E. subst. exact Hx.
  - intros H. exists label. split; [exact H | apply String.eqb_refl].
Qed.

Lemma add_labels_seen (label : string) (seen ks : list string) :
  has_label label seen = true -> has_label label (add_labels seen ks) = true.
Proof.
  rewrite !has_label_In. unfold add_labels. intros H.
  apply in_or_app. left. exact H.
Qed.

Lemma add_labels_new (label : string) (seen ks : list string) :
  In label ks -> has_label label (add_labels seen ks) = true.
Proof.
  intros H. destruct (has_label label seen) eqn:E.
  - apply add_labels_seen. exact E.
  - apply has_label_In. unfold add_labels. apply in_or_app. right.
    apply filter_In. split; [exact H | now rewrite E].
Qed.

Lemma fold_add_labels_seen (label : string) (kss : list (list string)) :
  forall seen, has_label label seen = true ->
               has_label label (fold_left add_labels kss seen) = true.
Proof.
  induction kss as [|ks kss IH]; simpl; intros seen H.
  - exact H.
  - apply IH. apply add_labels_seen. exact H.
Qed.

Lemma fold_add_labels_only (label : string) (kss : list (list string)) :
  forall seen, has_label label (fold_left add_labels kss seen) = true ->
               has_label label seen = true \/ exists ks, In ks kss /\ In label ks.
Proof.
  induction kss as [|ks kss IH]; simpl; intros seen H.
  - left. exact H.
  - destruct (IH _ H) as [H1 | (ks' & Hin & Hl)].
    + apply has_label_In in H1. unfold add_labels in H1.
      apply in_app_or in H1. destruct H1 as [H1 | H1].
      * left. apply has_label_In. exact H1.
      * right. exists ks. split; [now left |].
        apply filter_In in H1. tauto.
    + right. exists ks'. split; [now right | exact Hl].
Qed.

(** A frame built from records has every key of its first record. *)
Lemma DataFrame_of_records_label {R : Type} (keys : R -> list string)
    (r : R) (rs : list R) (label : string) :
  In label (keys r) ->
  has_label label (columns (DataFrame_of_records keys (r :: rs))) = true.
Proof.
  intros H. unfold DataFrame_of_records. simpl.
  apply fold_add_labels_seen. apply add_labels_new. exact H.
Qed.

Lemma column_label {R A : Type} (df : DataFrame R) (label : string)
    (cell : R -> A) :
  has_label label (columns df) = true ->
  column df label cell = Ok (map cell (rows df)).
Proof. unfold column. intros ->. reflexivity. Qed.

Lemma column_Ok {R A : Type} (df : DataFrame R) (label : string)
    (cell : R -> A) (cells : list A) :
  column df label cell = Ok cells ->
  has_label label (columns df) = true /\ cells = map cell (rows df).
Proof.
  unfold column. destruct (has_label label (columns df)); intros H.
  - injection H as <-. auto.
  - discriminate.
Qed.

(** ** The normalizer loop *)

Section NormalizerFacts.

Context {RT : Runtime}.
Variables (cutoff_date end_date : option datetime) (tz : timezone).

Lemma astimezone_aware (dt out : datetime) :
  astimezone dt tz = Ok out -> tzinfo out = Some tz.
Proof.
  unfold astimezone. intros H. bind_inv H. bind_inv H.
  injection H as <-. reflexivity.
Qed.

Lemma parse_instant_aware (s : string) (out : datetime) :
  parse_instant s tz = Ok out -> tzinfo out = Some tz.
Proof.
  unfold parse_instant. destruct (fromisoformat _); [|discriminate].
  apply astimezone_aware.
Qed.

Lemma created_at_of_aware (pr : Raw.t) (created : datetime) :
  created_at_of pr tz = Ok created -> tzinfo created = Some tz.
Proof.
  unfold created_at_of. intros H. bind_inv H.
  eapply parse_instant_aware; eassumption.
Qed.

(** With aware bounds the filter never raises and computes [within]. *)
Lemma date_filter_within (created : datetime) :
  aware cutoff_date -> aware end_date -> tzinfo created = Some tz ->
  date_filter cutoff_date end_date created
  = Ok (within cutoff_date end_date created).
Proof.
  intros Hc He Ht. unfold date_filter, within, dt_ge, dt_le, compare_operands, instant.
  rewrite Ht.
  destruct cutoff_date as [c|].
  - destruct (tzinfo c) as [zc|] eqn:Ec; [|exfalso; now apply (Hc c)].
    simpl. destruct (utc_of (wall c) zc <=? utc_of (wall created) tz); simpl.
    + destruct end_date as [e|]; [|reflexivity].
      destruct (tzinfo e) as [ze|] eqn:Ee; [|exfalso; now apply (He e)].
      reflexivity.
    + reflexivity.
  - simpl. destruct end_date as [e|]; [|reflexivity].
    destruct (tzinfo e) as [ze|] eqn:Ee; [|exfalso; now apply (He e)].
    reflexivity.
Qed.

Lemma normalize_pr_Some (pr : Raw.t) (d : pr_data string) :
  normalize_pr cutoff_date end_date tz pr = Ok (Some d) ->
  exists created,
    created_at_of pr tz = Ok created /\
    date_filter cutoff_date end_date created = Ok true /\
    build_pr_data pr tz created = Ok d.
Proof.
  unfold normalize_pr. intros H. bind_inv H. bind_inv H.
  destruct a0.
  - bind_inv H. injection H as <-. eauto.
  - discriminate.
Qed.

Lemma normalize_pr_None (pr : Raw.t) :
  normalize_pr cutoff_date end_date tz pr = Ok None ->
  exists created,
    created_at_of pr tz = Ok created /\
    date_filter cutoff_date end_date created = Ok false.
Proof.
  unfold normalize_pr. intros H. bind_inv H. bind_inv H.
  destruct a0.
  - bind_inv H. discriminate.
  - eauto.
Qed.

Lemma filter_prs_app (l1 l2 : list Raw.t) :
  filter_prs cutoff_date end_date tz (l1 ++ l2)
  = (a <- filter_prs cutoff_date end_date tz l1 ;;
     b <- filter_prs cutoff_date end_date tz l2 ;;
     Ok (a ++ b)).
Proof.
  induction l1 as [|pr l1 IH]; simpl.
  - destruct (filter_prs cutoff_date end_date tz l2); reflexivity.
  - destruct (normalize_pr cutoff_date end_date tz pr) as [r|e]; simpl; [|reflexivity].
    rewrite IH.
    destruct (filter_prs cutoff_date end_date tz l1) as [a|e]; simpl; [|reflexivity].
    destruct (filter_prs cutoff_date end_date tz l2) as [b|e]; simpl; [|reflexivity].
    destruct r; reflexivity.
Qed.

(** When every record is dropped by the filter nothing is collected. *)
Lemma filter_prs_all_dropped (prs : list Raw.t) :
  Forall (fun pr => normalize_pr cutoff_date end_date tz pr = Ok None) prs ->
  filter_prs cutoff_date end_date tz prs = Ok [].
Proof.
  induction 1 as [|pr prs H _ IH]; simpl.
  - reflexivity.
  - rewrite H, IH. reflexivity.
Qed.

(** Every collected dict was built from a record that passed. *)
Lemma filter_prs_sound (prs : list Raw.t) :
  forall ds, filter_prs cutoff_date end_date tz prs = Ok ds ->
  Forall (fun d => exists pr created,
              In pr prs /\
              created_at_of pr tz = Ok created /\
              date_filter cutoff_date end_date created = Ok true /\
              build_pr_data pr tz created = Ok d) ds.
Proof.
  induction prs as [|pr prs IH]; simpl; intros ds H.
  - injection H as <-. constructor.
  - bind_inv H. bind_inv H. injection H as <-.
    assert (Hrest : Forall (fun d => exists pr0 created,
              (pr = pr0 \/ In pr0 prs) /\
              created_at_of pr0 tz = Ok created /\
              date_filter cutoff_date end_date created = Ok true /\
              build_pr_data pr0 tz created = Ok d) a0).
    { eapply Forall_impl; [|apply IH; exact E0].
      intros d (pr0 & created & Hin & H1 & H2 & H3).
      exists pr0, created. auto. }
    destruct a as [d|]; [|exact Hrest].
    constructor; [|exact Hrest].
    apply normalize_pr_Some in E. destruct E as (created & H1 & H2 & H3).
    exists pr, created. auto.
Qed.

(** With aware bounds the collected dicts are, in order, those of the
    records that [kept] selects. *)
Lemma filter_prs_kept (prs : list Raw.t) :
  aware cutoff_date -> aware end_date ->
  forall ds, filter_prs cutoff_date end_date tz prs = Ok ds ->
  Forall2 (normalized_from tz) (filter (kept cutoff_date end_date tz) prs) ds.
Proof.
  intros Hc He.
  induction prs as [|pr prs IH]; simpl; intros ds H.
  - injection H as <-. constructor.
  - bind_inv H. bind_inv H. injection H as <-.
    specialize (IH _ E0). unfold kept at 1.
    destruct a as [d|].
    + apply normalize_pr_Some in E. destruct E as (created & H1 & H2 & H3).
      rewrite H1.
      rewrite date_filter_within in H2
        by (auto; eapply created_at_of_aware; eassumption).
      injection H2 as ->.
      constructor; [|exact IH].
      exists created, d. auto.
    + apply normalize_pr_None in E. destruct E as (created & H1 & H2).
      rewrite H1.
      rewrite date_filter_within in H2
        by (auto; eapply created_at_of_aware; eassumption).
      injection H2 as ->. exact IH.
Qed.

(** What a successful call of [process_pr_data] went through. *)
Lemma process_pr_data_Ok (prs : list Raw.t) (df : DataFrame (pr_data datetime)) :
  process_pr_data prs cutoff_date end_date tz = Ok df ->
  exists ds stamps,
    filter_prs cutoff_date end_date tz prs = Ok ds /\
    ds <> [] /\
    length stamps = length ds /\
    columns df = columns (DataFrame_of_records pr_keys ds) /\
    rows df = map (fun p => with_created_at (fst p) (snd p)) (combine ds stamps).
Proof.
  unfold process_pr_data. intros H. bind_inv H. bind_inv H.
  destruct (to_datetime a0) as [stamps|] eqn:Et; [|discriminate].
  injection H as <-.
  apply column_Ok in E0. destruct E0 as [Hl ->].
  apply to_datetime_length in Et. rewrite length_map in Et.
  exists a, stamps. repeat split; auto.
  intros ->. discriminate.
Qed.

End NormalizerFacts.

(** ** Claims about the normalizer *)

Section NormalizerClaims.

Context {RT : Runtime}.
Variables (cutoff_date end_date : option datetime) (tz : timezone).

Lemma carried_fields {T U : Type} (row : pr_data T) (d : pr_data U) :
  carried row = carried d ->
  author row = author d /\ merged_at row = merged_at d /\
  time_to_merge_hours row = time_to_merge_hours d /\
  time_to_merge_days row = time_to_merge_days d.
Proof.
  intros H.
  pose proof (f_equal author H) as H1.
  pose proof (f_equal merged_at H) as H2.
  pose proof (f_equal time_to_merge_hours H) as H3.
  pose proof (f_equal time_to_merge_days H) as H4.
  auto.
Qed.

(** Replacing the [created_at] column keeps the rows in place. *)
Lemma Forall2_assigned {T U : Type} (P : Raw.t -> pr_data unit -> Prop)
    (prs : list Raw.t) (ds : list (pr_data T)) :
  Forall2 (fun pr d => P pr (carried d)) prs ds ->
  forall stamps : list U, length stamps = length ds ->
  Forall2 (fun pr row => P pr (carried row)) prs
          (map (fun p => with_created_at (fst p) (snd p)) (combine ds stamps)).
Proof.
  induction 1 as [|pr d prs ds H _ IH]; intros stamps Hlen.
  - constructor.
  - destruct stamps as [|t stamps]; [discriminate|].
    simpl. constructor.
    + exact H.
    + apply IH. simpl in Hlen. congruence.
Qed.

Lemma In_assigned {T U : Type} (ds : list (pr_data T)) (stamps : list U)
    (row : pr_data U) :
  In row (map (fun p => with_created_at (fst p) (snd p)) (combine ds stamps)) ->
  exists d, In d ds /\ carried row = carried d.
Proof.
  rewrite in_map_iff. intros ([d t] & <- & Hin).
  exists d. split; [eapply in_combine_l; eassumption | reflexivity].
Qed.

Lemma author_login_KeyError (pr : Raw.t) (e : exception) :
  author_login pr = Raise e -> exists k, e = KeyError k.
Proof.
  unfold author_login. intros H.
  apply bind_Raise_inv in H. destruct H as [H | (a & _ & H)].
  - destruct (Raw.author pr); simpl in H; [discriminate|].
    injection H as <-. eauto.
  - destruct a as [[|entry d]|];
      cbv beta iota delta [author_truthy author_subscript] in H;
      try discriminate H.
    destruct (dict_get (entry :: d) "login"); simpl in H; [discriminate|].
    injection H as <-. eauto.
Qed.

(** A record without the [mergedAt] key cannot be built: the first
    missing key raises, [mergedAt] at the latest. *)
Lemma build_pr_data_missing_mergedAt (pr : Raw.t) (created : datetime) :
  Raw.mergedAt pr = None ->
  (exists k, build_pr_data pr tz created = Raise (KeyError k)) /\
  (forall n t a s,
      Raw.number pr = Some n -> Raw.title pr = Some t ->
      author_login pr = Ok a -> Raw.state pr = Some s ->
      build_pr_data pr tz created = Raise (KeyError "mergedAt")).
Proof.
  intros Hm. unfold build_pr_data, merge_fields. rewrite Hm. split.
  - destruct (Raw.number pr); simpl; [|eauto].
    destruct (Raw.title pr); simpl; [|eauto].
    destruct (author_login pr) as [a|e] eqn:Ea; simpl.
    + destruct (Raw.state pr); simpl; eauto.
    + apply author_login_KeyError in Ea. destruct Ea as (k & ->). eauto.
  - intros n t a s -> -> -> ->. reflexivity.
Qed.

Lemma build_pr_data_merge (pr : Raw.t) (created : datetime) (d : pr_data string) :
  build_pr_data pr tz created = Ok d ->
  merge_fields pr tz created
  = Ok (merged_at d, time_to_merge_hours d, time_to_merge_days d).
Proof.
  unfold build_pr_data. intros H.
  bind_inv H. bind_inv H. bind_inv H. bind_inv H. bind_inv H. bind_inv H.
  injection H as <-. simpl. rewrite E3.
  destruct a3 as [[m h] dd]. reflexivity.
Qed.

Lemma build_pr_data_author (pr : Raw.t) (created : datetime) (d : pr_data string) :
  build_pr_data pr tz created = Ok d -> author_login pr = Ok (author d).
Proof.
  unfold build_pr_data. intros H.
  bind_inv H. bind_inv H. bind_inv H. bind_inv H. bind_inv H. bind_inv H.
  injection H as <-. simpl. exact E1.
Qed.

(** C1 (the code departs from the claim): when the input sequence is
    empty, or the date filter drops every record, [process_pr_data]
    does not return an empty table: the frame built from no record has
    no column, and reading its [created_at] column raises KeyError. *)
Theorem process_pr_data_no_rows_raises (prs : list Raw.t) :
  Forall (fun pr => normalize_pr cutoff_date end_date tz pr = Ok None) prs ->
  process_pr_data prs cutoff_date end_date tz = Raise (KeyError "created_at").
Proof.
  intros H. unfold process_pr_data.
  rewrite (filter_prs_all_dropped _ _ _ _ H). reflexivity.
Qed.

(** C3 (amended): when the [author] key of a raw record is present and
    its value is null (or an empty mapping), evaluating the author does
    not raise and the normalized record's author is the literal string
    "unknown". When the key is absent the lookup raises KeyError and
    the record is never normalized. *)
Theorem null_author_defaults_to_unknown (pr : Raw.t) :
  (forall a,
     Raw.author pr = Some a -> author_truthy a = false ->
     author_login pr = Ok "unknown"%string /\
     forall d, normalize_pr cutoff_date end_date tz pr = Ok (Some d) ->
               author d = "unknown"%string) /\
  (Raw.author pr = None ->
     author_login pr = Raise (KeyError "author") /\
     forall d, normalize_pr cutoff_date end_date tz pr <> Ok (Some d)).
Proof.
  split.
  - intros a Ha Hf.
    assert (Hl : author_login pr = Ok "unknown"%string).
    { unfold author_login. rewrite Ha. simpl. rewrite Hf. reflexivity. }
    split; [exact Hl|].
    intros d Hd. apply normalize_pr_Some in Hd.
    destruct Hd as (created & _ & _ & Hb).
    apply build_pr_data_author in Hb. congruence.
  - intros Ha.
    assert (Hl : author_login pr = Raise (KeyError "author")).
    { unfold author_login. rewrite Ha. reflexivity. }
    split; [exact Hl|].
    intros d Hd. apply normalize_pr_Some in Hd.
    destruct Hd as (created & _ & _ & Hb).
    apply build_pr_data_author in Hb. congruence.
Qed.

(** C4: a record that passes the date filter and has no [mergedAt] key
    makes the whole call fail. When the records before it went through
    the failure is a KeyError, and it is the KeyError of [mergedAt]
    when the record's other mandatory keys are there. *)
Theorem missing_mergedAt_fails_batch (before after : list Raw.t) (pr : Raw.t)
    (created : datetime) :
  created_at_of pr tz = Ok created ->
  date_filter cutoff_date end_date created = Ok true ->
  Raw.mergedAt pr = None ->
  raises (process_pr_data (before ++ pr :: after) cutoff_date end_date tz) /\
  (forall ds, filter_prs cutoff_date end_date tz before = Ok ds ->
     exists k, process_pr_data (before ++ pr :: after) cutoff_date end_date tz
               = Raise (KeyError k)) /\
  (forall ds n t a s,
     filter_prs cutoff_date end_date tz before = Ok ds ->
     Raw.number pr = Some n -> Raw.title pr = Some t ->
     author_login pr = Ok a -> Raw.state pr = Some s ->
     process_pr_data (before ++ pr :: after) cutoff_date end_date tz
     = Raise (KeyError "mergedAt")).
Proof.
  intros Hc Hf Hm.
  destruct (build_pr_data_missing_mergedAt pr created Hm) as [(k & Hk) Hprecise].
  assert (Hn : forall e, build_pr_data pr tz created = Raise e ->
               normalize_pr cutoff_date end_date tz pr = Raise e).
  { intros e He. unfold normalize_pr. rewrite Hc. simpl. rewrite Hf. simpl.
    rewrite He. reflexivity. }
  assert (Hb : forall e ds, build_pr_data pr tz created = Raise e ->
               filter_prs cutoff_date end_date tz before = Ok ds ->
               process_pr_data (before ++ pr :: after) cutoff_date end_date tz
               = Raise e).
  { intros e ds He Hds. unfold process_pr_data.
    rewrite filter_prs_app, Hds. simpl. rewrite (Hn e He). reflexivity. }
  split; [|split].
  - destruct (filter_prs cutoff_date end_date tz before) as [ds|e] eqn:Hds.
    + exists (KeyError k). eapply Hb; eauto.
    + exists e. unfold process_pr_data. rewrite filter_prs_app, Hds. reflexivity.
  - intros ds Hds. exists k. eapply Hb; eauto.
  - intros ds n t a s Hds H1 H2 H3 H4. eapply Hb; eauto.
Qed.

Lemma kept_iff (pr : Raw.t) :
  kept cutoff_date end_date tz pr = true <->
  exists created,
    created_at_of pr tz = Ok created /\
    (forall c, cutoff_date = Some c -> instant c <= instant created) /\
    (forall e, end_date = Some e -> instant created <= instant e).
Proof.
  unfold kept, within. split.
  - destruct (created_at_of pr tz) as [created|]; [|discriminate].
    intros H. apply andb_true_iff in H. destruct H as [H1 H2].
    exists created. split; [reflexivity|]. split.
    + intros c ->. now apply Z.leb_le.
    + intros e ->. now apply Z.leb_le.
  - intros (created & -> & H1 & H2). apply andb_true_iff. split.
    + destruct cutoff_date as [c|]; [|reflexivity]. apply Z.leb_le. now apply H1.
    + destruct end_date as [e|]; [|reflexivity]. apply Z.leb_le. now apply H2.
Qed.

(** C5: with aware bounds, the rows of the table are, in input order,
    the normalized forms of exactly the records whose zone-converted
    [created_at] lies at or after [cutoff_date] (when given) and at or
    before [end_date] (when given); both bounds are inclusive, an
    absent bound excludes nothing. *)
Theorem rows_are_the_records_in_range (prs : list Raw.t)
    (df : DataFrame (pr_data datetime)) :
  aware cutoff_date -> aware end_date ->
  process_pr_data prs cutoff_date end_date tz = Ok df ->
  Forall2 (normalized_from tz) (filter (kept cutoff_date end_date tz) prs) (rows df) /\
  forall pr,
    kept cutoff_date end_date tz pr = true <->
    exists created,
      created_at_of pr tz = Ok created /\
      (forall c, cutoff_date = Some c -> instant c <= instant created) /\
      (forall e, end_date = Some e -> instant created <= instant e).
Proof.
  intros Hc He H. split; [|apply kept_iff].
  apply process_pr_data_Ok in H.
  destruct H as (ds & stamps & Hds & _ & Hlen & _ & ->).
  pose proof (filter_prs_kept _ _ _ prs Hc He ds Hds) as HF.
  apply (Forall2_assigned
           (fun pr u => exists created d,
                created_at_of pr tz = Ok created /\
                build_pr_data pr tz created = Ok d /\ u = carried d)
           _ _ HF _ Hlen).
Qed.

(** C6: in every row of the table [time_to_merge_hours] (and likewise
    [time_to_merge_days]) is null exactly when [merged_at] is null;
    when present, the hours are the seconds elapsed from the record's
    creation to its merge divided by 3600, and the days are the hours
    divided by 24. *)
Theorem time_to_merge_iff_merged (prs : list Raw.t)
    (df : DataFrame (pr_data datetime)) (row : pr_data datetime) :
  process_pr_data prs cutoff_date end_date tz = Ok df ->
  In row (rows df) ->
  (time_to_merge_hours row = None <-> merged_at row = None) /\
  (time_to_merge_days row = None <-> merged_at row = None) /\
  forall h, time_to_merge_hours row = Some h ->
    exists pr created s merged days,
      In pr prs /\
      created_at_of pr tz = Ok created /\
      Raw.mergedAt pr = Some (Some s) /\
      parse_instant s tz = Ok merged /\
      merged_at row = Some (isoformat merged) /\
      (h == inject_Z (instant merged - instant created)
            / inject_Z usec_per_second / inject_Z 3600)%Q /\
      time_to_merge_days row = Some days /\
      (days == h / inject_Z 24)%Q.
Proof.
  intros H Hin.
  apply process_pr_data_Ok in H.
  destruct H as (ds & stamps & Hds & _ & _ & _ & Hrows).
  rewrite Hrows in Hin. apply In_assigned in Hin.
  destruct Hin as (d & Hd & Hc).
  apply carried_fields in Hc. destruct Hc as (_ & -> & -> & ->).
  pose proof (filter_prs_sound _ _ _ prs ds Hds) as HF.
  rewrite Forall_forall in HF.
  destruct (HF d Hd) as (pr & created & Hpr & Hcr & _ & Hb).
  apply build_pr_data_merge in Hb. unfold merge_fields in Hb.
  bind_inv Hb. apply getitem_Ok in E.
  destruct a as [[|c s]|]; simpl in Hb.
  - injection Hb as <- <- <-. repeat split; auto; discriminate.
  - bind_inv Hb. bind_inv Hb. injection Hb as <- <- <-.
    repeat split; try discriminate.
    intros h Hh. injection Hh as <-.
    exists pr, created, (String c s), a, (fdiv (fdiv (total_seconds a0) 3600) 24).
    repeat split; auto.
    + unfold fdiv, total_seconds. rewrite !Qred_correct.
      unfold dt_sub in E1.
      rewrite (parse_instant_aware _ _ _ E0) in E1.
      rewrite (created_at_of_aware _ _ _ Hcr) in E1.
      injection E1 as <-. unfold instant.
      rewrite (parse_instant_aware _ _ _ E0), (created_at_of_aware _ _ _ Hcr).
      reflexivity.
    + unfold fdiv at 1. rewrite Qred_correct. reflexivity.
  - injection Hb as <- <- <-. repeat split; auto; discriminate.
Qed.

End NormalizerClaims.

(** *** The normalizer on the sample inputs *)

Example process_pr_data_sample :
  process_pr_data (RT := reference_runtime) sample_prs None None DEFAULT_TIMEZONE
  = Ok sample_table /\
  map number (rows sample_table) = [101; 102; 103; 104] /\
  map author (rows sample_table) = ["alice"; "bob"; "unknown"; "alice"]%string /\
  map month (rows sample_table)
  = ["2024-01"; "2024-01"; "2024-02"; "2023-12"]%string /\
  map time_to_merge_hours (rows sample_table)
  = [Some 5%Q; Some 15%Q; None; Some 48%Q] /\
  map time_to_merge_days (rows sample_table)
  = [Some (5 # 24)%Q; Some (5 # 8)%Q; None; Some 2%Q].
Proof. vm_compute. repeat split. Qed.

(** The empty input sequence, the failing input of C1, under any
    runtime, bounds and zone. *)
Example process_pr_data_empty_input (RT : Runtime)
    (cutoff_date end_date : option datetime) (tz : timezone) :
  process_pr_data [] cutoff_date end_date tz = Raise (KeyError "created_at").
Proof. reflexivity. Qed.

Lemma process_pr_data_no_rows_witness :
  Forall (fun pr =>
            normalize_pr (RT := reference_runtime)
              (Some (midnight 2025 1 1 DEFAULT_TIMEZONE)) None DEFAULT_TIMEZONE pr
            = Ok None) sample_prs /\
  process_pr_data (RT := reference_runtime) sample_prs
    (Some (midnight 2025 1 1 DEFAULT_TIMEZONE)) None DEFAULT_TIMEZONE
  = Raise (KeyError "created_at").
Proof.
  assert (H : Forall (fun pr =>
            normalize_pr (RT := reference_runtime)
              (Some (midnight 2025 1 1 DEFAULT_TIMEZONE)) None DEFAULT_TIMEZONE pr
            = Ok None) sample_prs).
  { repeat constructor; vm_compute; reflexivity. }
  split; [exact H|].
  apply process_pr_data_no_rows_raises. exact H.
Defined.

(** C3 as stated fails: a record whose [author] key is absent does not
    get the author "unknown"; looking the key up raises KeyError and the
    call fails. *)
Lemma absent_author_raises :
  Raw.author pr_no_author = None /\
  author_login pr_no_author = Raise (KeyError "author") /\
  process_pr_data (RT := reference_runtime) [pr_no_author] None None DEFAULT_TIMEZONE
  = Raise (KeyError "author").
Proof. vm_compute. repeat split. Qed.

Lemma null_author_witness :
  Raw.author pr_ghost = Some None /\
  author_login pr_ghost = Ok "unknown"%string /\
  option_map author
    (value_or None
       (normalize_pr (RT := reference_runtime) None None DEFAULT_TIMEZONE pr_ghost))
  = Some "unknown"%string.
Proof.
  destruct (proj1 (null_author_defaults_to_unknown (RT := reference_runtime)
                     None None DEFAULT_TIMEZONE pr_ghost) None eq_refl eq_refl)
    as [H1 H2].
  split; [reflexivity|]. split; [exact H1|].
  destruct (normalize_pr (RT := reference_runtime) None None DEFAULT_TIMEZONE pr_ghost)
    as [[d|]|e] eqn:E.
  - simpl. f_equal. apply H2. reflexivity.
  - vm_compute in E. discriminate E.
  - vm_compute in E. discriminate E.
Defined.

Lemma missing_mergedAt_witness :
  Raw.mergedAt pr_no_mergedAt = None /\
  process_pr_data (RT := reference_runtime) [pr_alice; pr_no_mergedAt; pr_bob]
    None None DEFAULT_TIMEZONE
  = Raise (KeyError "mergedAt").
Proof.
  split; [reflexivity|].
  refine (proj2 (proj2
    (missing_mergedAt_fails_batch (RT := reference_runtime) None None DEFAULT_TIMEZONE
       [pr_alice] [pr_bob] pr_no_mergedAt
       (value_or (mkdt 0 None)
          (created_at_of (RT := reference_runtime) pr_no_mergedAt DEFAULT_TIMEZONE))
       _ _ _))
    (value_or [] (filter_prs (RT := reference_runtime) None None DEFAULT_TIMEZONE [pr_alice]))
    103 "Draft"%string "unknown"%string "OPEN"%string _ _ _ _ _);
    vm_compute; reflexivity.
Defined.

Lemma rows_in_range_witness :
  filter (kept (RT := reference_runtime) sample_cutoff sample_end DEFAULT_TIMEZONE)
         sample_prs = [pr_bob; pr_ghost] /\
  map number (rows range_table) = [102; 103] /\
  Forall2 (normalized_from (RT := reference_runtime) DEFAULT_TIMEZONE)
          (filter (kept (RT := reference_runtime) sample_cutoff sample_end DEFAULT_TIMEZONE)
                  sample_prs)
          (rows range_table).
Proof.
  split; [vm_compute; reflexivity|]. split; [vm_compute; reflexivity|].
  apply (rows_are_the_records_in_range (RT := reference_runtime)
           sample_cutoff sample_end DEFAULT_TIMEZONE sample_prs range_table).
  - intros b Hb. injection Hb as <-. discriminate.
  - intros b Hb. injection Hb as <-. discriminate.
  - vm_compute. reflexivity.
Defined.

Lemma time_to_merge_witness :
  Forall (fun row : pr_data datetime =>
            time_to_merge_hours row = None <-> merged_at row = None)
         (rows sample_table).
Proof.
  apply Forall_forall. intros row Hin.
  apply (time_to_merge_iff_merged (RT := reference_runtime)
           None None DEFAULT_TIMEZONE sample_prs sample_table row).
  - vm_compute. reflexivity.
  - exact Hin.
Defined.

(** ** Lists, sorting and the pandas reductions *)

Lemma select_map {R : Type} (f : R -> bool) (rs : list R) :
  select rs (map f rs) = filter f rs.
Proof.
  induction rs as [|r rs IH]; simpl; [reflexivity|].
  rewrite IH. reflexivity.
Qed.

Lemma filter_filter {R : Type} (f g : R -> bool) (rs : list R) :
  filter g (filter f rs) = filter (fun r => f r && g r) rs.
Proof.
  induction rs as [|r rs IH]; simpl; [reflexivity|].
  destruct (f r); simpl; [destruct (g r)|]; rewrite IH; reflexivity.
Qed.

Lemma unique_In (x : string) (values : list string) :
  In x (unique values) <-> In x values.
Proof.
  induction values as [|v rest IH]; simpl; [tauto|].
  rewrite filter_In, IH. split.
  - intros [H | [H _]]; auto.
  - intros [H | H]; [auto|].
    destruct (String.eqb x v) eqn:E.
    + apply String.eqb_eq in E. auto.
    + right. split; [exact H | reflexivity].
Qed.

Lemma unique_NoDup (values : list string) : NoDup (unique values).
Proof.
  induction values as [|v rest IH]; simpl; constructor.
  - rewrite filter_In. intros [_ H]. rewrite String.eqb_refl in H. discriminate.
  - apply NoDup_filter. exact IH.
Qed.

Lemma dict_set_fresh {V : Type} (d : dict V) (key : string) (v : V) :
  ~ In key (map fst d) -> dict_set d key v = d ++ [(key, v)].
Proof.
  induction d as [|[k w] rest IH]; simpl; intros H; [reflexivity|].
  destruct (String.eqb k key) eqn:E.
  - apply String.eqb_eq in E. tauto.
  - rewrite IH by tauto. reflexivity.
Qed.

Section Sorting.

Context {A : Type}.
Variable le : A -> A -> bool.
Hypothesis le_total : forall a b, le a b = true \/ le b a = true.
Hypothesis le_trans : forall a b c, le a b = true -> le b c = true -> le a c = true.

Let leP (a b : A) : Prop := le a b = true.

Lemma insert_by_perm (x : A) (l : list A) : Permutation (x :: l) (insert_by le x l).
Proof.
  induction l as [|y l IH]; simpl; [reflexivity|].
  destruct (le x y); [reflexivity|].
  rewrite perm_swap. apply perm_skip. exact IH.
Qed.

Lemma sort_by_perm (l : list A) : Permutation l (sort_by le l).
Proof.
  induction l as [|x l IH]; simpl; [constructor|].
  rewrite <- insert_by_perm. apply perm_skip. exact IH.
Qed.

Lemma insert_by_sorted (x : A) (l : list A) :
  StronglySorted leP l -> StronglySorted leP (insert_by le x l).
Proof.
  induction 1 as [|y l Hs IH Hy]; simpl.
  - repeat constructor.
  - destruct (le x y) eqn:E.
    + constructor; [constructor; assumption|].
      constructor; [exact E|].
      eapply Forall_impl; [|exact Hy].
      intros z Hz. eapply le_trans; eassumption.
    + constructor; [exact IH|].
      eapply Permutation_Forall; [apply insert_by_perm|].
      constructor; [|exact Hy].
      destruct (le_total x y) as [H|H]; [congruence | exact H].
Qed.

Lemma sort_by_sorted (l : list A) : StronglySorted leP (sort_by le l).
Proof.
  induction l as [|x l IH]; simpl; [constructor|].
  apply insert_by_sorted. exact IH.
Qed.

Lemma sort_by_length (l : list A) : length (sort_by le l) = length l.
Proof. symmetry. apply Permutation_length. apply sort_by_perm. Qed.

End Sorting.

(** Strings compare byte by byte; the order is total and transitive. *)
Lemma ascii_compare_N (a b : ascii) :
  Ascii.compare a b = N.compare (N_of_ascii a) (N_of_ascii b).
Proof. reflexivity. Qed.

Lemma string_compare_lt_trans (s1 : string) :
  forall s2 s3,
    String.compare s1 s2 = Lt -> String.compare s2 s3 = Lt ->
    String.compare s1 s3 = Lt.
Proof.
  induction s1 as [|a s1 IH]; intros [|b s2] [|c s3]; simpl; try congruence.
  rewrite !ascii_compare_N.
  destruct (N.compare_spec (N_of_ascii a) (N_of_ascii b)) as [Eab|Lab|Gab];
    try discriminate;
    destruct (N.compare_spec (N_of_ascii b) (N_of_ascii c)) as [Ebc|Lbc|Gbc];
    try discriminate; intros H1 H2.
  - rewrite Eab, Ebc, N.compare_refl. eapply IH; eassumption.
  - rewrite Eab. apply N.compare_lt_iff in Lbc. rewrite Lbc. reflexivity.
  - rewrite <- Ebc. apply N.compare_lt_iff in Lab. rewrite Lab. reflexivity.
  - assert (L : (N_of_ascii a < N_of_ascii c)%N) by (eapply N.lt_trans; eassumption).
    apply N.compare_lt_iff in L. rewrite L. reflexivity.
Qed.

Lemma string_compare_refl (s : string) : String.compare s s = Eq.
Proof.
  induction s as [|a s IH]; simpl; [reflexivity|].
  rewrite ascii_compare_N, N.compare_refl. exact IH.
Qed.

Lemma string_leb_total (a b : string) : String.leb a b = true \/ String.leb b a = true.
Proof. apply String.leb_total. Qed.

Lemma string_leb_trans (a b c : string) :
  String.leb a b = true -> String.leb b c = true -> String.leb a c = true.
Proof.
  unfold String.leb.
  destruct (String.compare a b) eqn:Eab; try discriminate;
    destruct (String.compare b c) eqn:Ebc; try discriminate; intros _ _.
  - apply String.compare_eq_iff in Eab, Ebc. subst.
    rewrite string_compare_refl. reflexivity.
  - apply String.compare_eq_iff in Eab. subst. rewrite Ebc. reflexivity.
  - apply String.compare_eq_iff in Ebc. subst. rewrite Eab. reflexivity.
  - rewrite (string_compare_lt_trans _ _ _ Eab Ebc). reflexivity.
Qed.

Lemma column_Raise {R A : Type} (df : DataFrame R) (label : string)
    (cell : R -> A) (e : exception) :
  column df label cell = Raise e -> e = KeyError label.
Proof.
  unfold column. destruct (has_label label (columns df)); congruence.
Qed.

Lemma Forall2_In_left {A B : Type} (P : A -> B -> Prop) (l1 : list A) (l2 : list B) :
  Forall2 P l1 l2 -> forall a, In a l1 -> exists b, In b l2 /\ P a b.
Proof.
  induction 1 as [|x y l1 l2 H _ IH]; simpl; intros a Ha; [contradiction|].
  destruct Ha as [<- | Ha].
  - eauto.
  - destruct (IH a Ha) as (b & Hb & Hab). eauto.
Qed.

Lemma Forall2_In_right {A B : Type} (P : A -> B -> Prop) (l1 : list A) (l2 : list B) :
  Forall2 P l1 l2 -> forall b, In b l2 -> exists a, In a l1 /\ P a b.
Proof.
  induction 1 as [|x y l1 l2 H _ IH]; simpl; intros b Hb; [contradiction|].
  destruct Hb as [<- | Hb].
  - eauto.
  - destruct (IH b Hb) as (a & Ha & Hab). eauto.
Qed.

(** ** The aggregator, step by step *)

(** The integer division guard: the quotient is always defined. *)
Lemma prs_per_person_spec (merged_pr_count unique_authors : nat) :
  exists q,
    prs_per_person merged_pr_count unique_authors = Ok q /\
    ((0 < unique_authors)%nat ->
       (q == inject_Z (Z.of_nat merged_pr_count)
             / inject_Z (Z.of_nat unique_authors))%Q) /\
    (unique_authors = 0%nat -> q = 0%Q) /\
    (0 <= q)%Q.
Proof.
  unfold prs_per_person, truediv.
  destruct unique_authors as [|u]; simpl Nat.ltb; cbv iota.
  - exists 0%Q. repeat split; try reflexivity.
    + intros H. inversion H.
    + apply Qle_refl.
  - replace (Z.of_nat (S u) =? 0) with false by (symmetry; apply Z.eqb_neq; lia).
    eexists. split; [reflexivity|]. repeat split.
    + intros _. apply Qred_correct.
    + discriminate.
    + rewrite Qred_correct. apply Qle_shift_div_l.
      * unfold Qlt. simpl. lia.
      * rewrite Qmult_0_l. unfold Qle. simpl. lia.
Qed.

Section AggregatorFacts.

Context {T : Type}.

Let frame : Type := DataFrame (pr_data T).

Lemma merged_subset_Ok (df dfm : frame) :
  merged_subset df = Ok dfm ->
  has_label "time_to_merge_days" (columns df) = true /\ dfm = merged_frame df.
Proof.
  unfold merged_subset. intros H. bind_inv H.
  apply column_Ok in E. destruct E as [Hl ->].
  injection H as <-. split; [exact Hl|].
  unfold boolean_index, merged_frame, notna. f_equal.
  rewrite map_map. apply select_map.
Qed.

Lemma month_frame_Ok (dfm mp : frame) (m : string) :
  month_frame dfm m = Ok mp ->
  mp = mkframe (columns dfm)
               (filter (fun r => String.eqb (month r) m) (rows dfm)).
Proof.
  unfold month_frame. intros H. bind_inv H.
  apply column_Ok in E. destruct E as [_ ->].
  injection H as <-. unfold boolean_index. f_equal.
  rewrite map_map. apply select_map.
Qed.

Lemma month_medians_Ok (mp : frame) (med : option median_stats) :
  month_medians mp = Ok med ->
  (med <> None <-> has_label "total_changes" (columns mp) = true) /\
  forall ms, med = Some ms ->
    median_total_changes ms = median (map total_changes_cell (rows mp)) /\
    median_changed_files ms = median (map changed_files_cell (rows mp)).
Proof.
  unfold month_medians.
  destruct (has_label "total_changes" (columns mp)) eqn:El; intros H.
  - bind_inv H. bind_inv H. injection H as <-.
    apply column_Ok in E, E0. destruct E as [_ ->]. destruct E0 as [_ ->].
    split; [split; [reflexivity | discriminate]|].
    intros ms Hms. injection Hms as <-. auto.
  - injection H as <-. split; [split; [congruence | discriminate]|].
    discriminate.
Qed.

(** What one turn of the loop over the months computes. *)
Lemma month_statistics_Ok (dfm : frame) (m : string) (s : Stats.t) :
  month_statistics dfm m = Ok s ->
  let rs := filter (fun r => String.eqb (month r) m) (rows dfm) in
  Stats.month s = m /\
  Stats.merged_pr_count s = length rs /\
  Stats.avg_time_to_merge_hours s = mean (map time_to_merge_hours rs) /\
  Stats.avg_time_to_merge_days s
  = option_map (fun h => fdiv h 24) (mean (map time_to_merge_hours rs)) /\
  Stats.unique_authors s = nunique (map author rs) /\
  prs_per_person (Stats.merged_pr_count s) (Stats.unique_authors s)
  = Ok (Stats.avg_prs_per_person s) /\
  month_medians (mkframe (columns dfm) rs) = Ok (Stats.medians s).
Proof.
  unfold month_statistics. intros H. bind_inv H.
  apply month_frame_Ok in E. subst a.
  bind_inv H. bind_inv H. bind_inv H. bind_inv H. bind_inv H.
  injection H as <-.
  apply column_Ok in E, E0, E1.
  destruct E as [_ ->]. destruct E0 as [_ ->]. destruct E1 as [_ ->].
  simpl. unfold len. simpl. repeat split; assumption.
Qed.

Lemma month_statistics_Raise (dfm : frame) (m : string) (e : exception) :
  month_statistics dfm m = Raise e -> exists k, e = KeyError k.
Proof.
  unfold month_statistics, month_frame, month_medians. intros H.
  repeat match type of H with
  | bind _ _ = Raise _ =>
      apply bind_Raise_inv in H;
      destruct H as [H | (? & ? & H)]
  | column _ _ _ = Raise _ => apply column_Raise in H; eauto
  | Ok _ = Raise _ => discriminate H
  | prs_per_person ?c ?u = Raise _ =>
      destruct (prs_per_person_spec c u) as (q & Hq & _); congruence
  | (if ?b then _ else _) = Raise _ => destruct b
  end.
Qed.

Lemma monthly_loop_Raise (dfm : frame) (months : list string) (e : exception) :
  forall acc, monthly_loop dfm months acc = Raise e -> exists k, e = KeyError k.
Proof.
  induction months as [|m months IH]; simpl; intros acc H; [discriminate|].
  apply bind_Raise_inv in H. destruct H as [H | (s & _ & H)].
  - eapply month_statistics_Raise; eassumption.
  - eapply IH; eassumption.
Qed.

(** With distinct months every turn appends one entry. *)
Lemma monthly_loop_Ok (dfm : frame) (months : list string) :
  forall acc data,
    NoDup months ->
    (forall m, In m months -> ~ In m (map fst acc)) ->
    monthly_loop dfm months acc = Ok data ->
    exists stats,
      Forall2 (fun m s => month_statistics dfm m = Ok s) months stats /\
      dict_values data = dict_values acc ++ stats.
Proof.
  induction months as [|m months IH]; simpl; intros acc data Hnd Hfresh H.
  - injection H as <-. exists []. split; [constructor|].
    rewrite app_nil_r. reflexivity.
  - bind_inv H. inversion Hnd as [|? ? Hm Hnd']; subst.
    rewrite dict_set_fresh in H by (apply Hfresh; now left).
    apply IH in H; [|exact Hnd'|].
    + destruct H as (stats & HF & Hv). exists (a :: stats). split.
      * constructor; assumption.
      * rewrite Hv. unfold dict_values. rewrite map_app. simpl.
        rewrite <- app_assoc. reflexivity.
    + intros m' Hin. rewrite map_app, in_app_iff. simpl.
      intros [H' | [H' | []]].
      * apply (Hfresh m'); [now right | exact H'].
      * subst. contradiction.
Qed.

(** Every failure of the aggregator is a KeyError. *)
Lemma calculate_monthly_statistics_Raise (df : frame) (e : exception) :
  calculate_monthly_statistics df = Raise e -> exists k, e = KeyError k.
Proof.
  unfold calculate_monthly_statistics, merged_subset, sort_values. intros H.
  repeat match type of H with
  | bind _ _ = Raise _ =>
      apply bind_Raise_inv in H;
      destruct H as [H | (? & ? & H)]
  | column _ _ _ = Raise _ => apply column_Raise in H; eauto
  | monthly_loop _ _ _ = Raise _ => apply monthly_loop_Raise in H; exact H
  | Ok _ = Raise _ => discriminate H
  | (if ?b then _ else _) = Raise _ => destruct b
  end.
  injection H as <-. eauto.
Qed.

(** What a successful call of the aggregator went through. *)
Lemma calculate_monthly_statistics_Ok (df : frame) (monthly : DataFrame Stats.t) :
  calculate_monthly_statistics df = Ok monthly ->
  exists stats,
    Forall2 (fun m s => month_statistics (merged_frame df) m = Ok s)
            (unique (map month (filter is_merged (rows df)))) stats /\
    rows monthly
    = sort_by (fun a b => String.leb (Stats.month a) (Stats.month b)) stats.
Proof.
  unfold calculate_monthly_statistics. intros H. bind_inv H.
  apply merged_subset_Ok in E. destruct E as [_ ->].
  bind_inv H. apply column_Ok in E. destruct E as [_ ->].
  bind_inv H.
  apply monthly_loop_Ok in E; [|apply unique_NoDup|intros m _ []].
  destruct E as (stats & HF & Hv). simpl in Hv.
  unfold sort_values in H.
  destruct (has_label "month" _); [|discriminate].
  injection H as <-. simpl. rewrite Hv.
  exists stats. split; [exact HF | reflexivity].
Qed.

(** The rows of the monthly table are the statistics of the months of
    the merged subset, one row a month. *)
Lemma monthly_rows (df : frame) (monthly : DataFrame Stats.t) :
  calculate_monthly_statistics df = Ok monthly ->
  (forall s, In s (rows monthly) ->
     month_statistics (merged_frame df) (Stats.month s) = Ok s /\
     exists r, In r (rows df) /\ is_merged r = true /\ month r = Stats.month s) /\
  (forall r, In r (rows df) -> is_merged r = true ->
     exists s, In s (rows monthly) /\ Stats.month s = month r).
Proof.
  intros H. apply calculate_monthly_statistics_Ok in H.
  destruct H as (stats & HF & Hrows). rewrite Hrows. split.
  - intros s Hs.
    apply (Permutation_in _ (Permutation_sym (sort_by_perm _ stats))) in Hs.
    destruct (Forall2_In_right _ _ _ HF s Hs) as (m & Hm & Hms).
    pose proof (month_statistics_Ok _ _ _ Hms) as (Hmonth & _).
    rewrite Hmonth. split; [exact Hms|].
    apply unique_In, in_map_iff in Hm. destruct Hm as (r & Hr & Hin).
    apply filter_In in Hin. destruct Hin as [Hin Hmerged].
    exists r. auto.
  - intros r Hr Hmerged.
    assert (Hm : In (month r) (unique (map month (filter is_merged (rows df))))).
    { apply unique_In, in_map. apply filter_In. auto. }
    destruct (Forall2_In_left _ _ _ HF _ Hm) as (s & Hs & Hms).
    exists s. split.
    + apply (Permutation_in _ (sort_by_perm _ stats)). exact Hs.
    + apply (month_statistics_Ok _ _ _ Hms).
Qed.

End AggregatorFacts.

(** ** When the aggregator returns *)

Lemma fold_add_labels_any (label : string) (kss : list (list string)) :
  forall seen ks,
    In ks kss -> In label ks ->
    has_label label (fold_left add_labels kss seen) = true.
Proof.
  induction kss as [|ks0 kss IH]; simpl; intros seen ks Hin Hl; [contradiction|].
  destruct Hin as [-> | Hin].
  - apply fold_add_labels_seen. apply add_labels_new. exact Hl.
  - eapply IH; eassumption.
Qed.

(** The columns of a table made by the normalizer: the ten base columns,
    and the four size columns together or not at all. *)
Lemma process_pr_data_columns {RT : Runtime} (prs : list Raw.t)
    (cutoff_date end_date : option datetime) (tz : timezone)
    (df : DataFrame (pr_data datetime)) :
  process_pr_data prs cutoff_date end_date tz = Ok df ->
  (forall label, In label base_keys -> has_label label (columns df) = true) /\
  (forall label, In label diff_keys ->
     has_label label (columns df) = true <->
     exists row, In row (rows df) /\ diff row <> None).
Proof.
  intros H. apply process_pr_data_Ok in H.
  destruct H as (ds & stamps & _ & Hne & Hlen & -> & Hrows). split.
  - intros label Hl. destruct ds as [|d ds]; [congruence|].
    apply DataFrame_of_records_label. unfold pr_keys.
    apply in_or_app. left. exact Hl.
  - intros label Hl.
    assert (Hdiff : (exists row, In row (rows df) /\ diff row <> None) <->
                    (exists d, In d ds /\ diff d <> None)).
    { rewrite Hrows. split.
      - intros (row & Hin & Hd). apply In_assigned in Hin.
        destruct Hin as (d & Hin & Hc).
        exists d. split; [exact Hin|].
        pose proof (f_equal diff Hc) as E. simpl in E. congruence.
      - intros (d & Hin & Hd).
        destruct (In_nth _ _ d Hin) as (i & Hi & Hnth).
        assert (Hi' : (i < length (combine ds stamps))%nat)
          by (rewrite length_combine, Hlen, Nat.min_id; exact Hi).
        exists (with_created_at (fst (nth i (combine ds stamps) (d, mkdt 0 None)))
                                (snd (nth i (combine ds stamps) (d, mkdt 0 None)))).
        split.
        + apply (in_map (fun p => with_created_at (fst p) (snd p))).
          apply nth_In. exact Hi'.
        + rewrite combine_nth by congruence. simpl. rewrite Hnth. exact Hd. }
    rewrite Hdiff. unfold DataFrame_of_records. simpl. split.
    + intros H. apply fold_add_labels_only in H.
      destruct H as [H | (ks & Hks & Hin)]; [discriminate|].
      apply in_map_iff in Hks. destruct Hks as (d & <- & Hd).
      exists d. split; [exact Hd|].
      unfold pr_keys in Hin. apply in_app_or in Hin.
      destruct Hin as [Hin | Hin].
      * exfalso. revert Hl Hin. unfold diff_keys, base_keys. simpl.
        intros Hl Hin.
        repeat (destruct Hl as [<- | Hl];
                [repeat (destruct Hin as [Hin | Hin]; [discriminate Hin|]);
                 exact Hin|]).
        exact Hl.
      * destruct (diff d); [discriminate | contradiction].
    + intros (d & Hd & Hdiff'). eapply fold_add_labels_any.
      * apply in_map. exact Hd.
      * unfold pr_keys. apply in_or_app. right.
        destruct (diff d); [exact Hl | congruence].
Qed.

Lemma boolean_index_notna {T : Type} (df : DataFrame (pr_data T)) :
  boolean_index df (notna (map time_to_merge_days (rows df))) = merged_frame df.
Proof.
  unfold boolean_index, merged_frame, notna. f_equal.
  rewrite map_map. apply select_map.
Qed.

Section AggregatorReturns.

Context {T : Type}.

Variable df : DataFrame (pr_data T).
Hypothesis has_days : has_label "time_to_merge_days" (columns df) = true.
Hypothesis has_month : has_label "month" (columns df) = true.
Hypothesis has_hours : has_label "time_to_merge_hours" (columns df) = true.
Hypothesis has_author : has_label "author" (columns df) = true.
Hypothesis has_sizes :
  has_label "total_changes" (columns df) = true ->
  has_label "changed_files" (columns df) = true.

Lemma month_statistics_returns (m : string) :
  exists s, month_statistics (merged_frame df) m = Ok s.
Proof.
  unfold month_statistics, month_frame.
  rewrite column_label by exact has_month. simpl.
  rewrite !column_label by assumption. simpl.
  match goal with
  | |- context [prs_per_person ?c ?u] =>
      destruct (prs_per_person_spec c u) as (q & -> & _)
  end.
  simpl. unfold month_medians. simpl.
  destruct (has_label "total_changes" (columns df)) eqn:E.
  - rewrite !column_label by (simpl; auto). simpl. eauto.
  - simpl. eauto.
Qed.

Lemma monthly_loop_returns (months : list string) :
  forall acc, exists data, monthly_loop (merged_frame df) months acc = Ok data.
Proof.
  induction months as [|m months IH]; simpl; intros acc; [eauto|].
  destruct (month_statistics_returns m) as (s & ->). simpl. apply IH.
Qed.

(** A table with the columns the aggregator reads and at least one
    merged record is aggregated without failure. *)
Lemma calculate_monthly_statistics_returns :
  (exists r, In r (rows df) /\ time_to_merge_days r <> None) ->
  returns (calculate_monthly_statistics df).
Proof.
  intros (r & Hr & Hmerged).
  assert (Hm : is_merged r = true).
  { unfold is_merged. destruct (time_to_merge_days r); congruence. }
  unfold returns, calculate_monthly_statistics, merged_subset.
  rewrite column_label by exact has_days. simpl.
  rewrite boolean_index_notna.
  rewrite column_label by exact has_month. simpl.
  destruct (monthly_loop_returns (unique (map month (filter is_merged (rows df)))) [])
    as (data & Hdata).
  rewrite Hdata. simpl.
  apply monthly_loop_Ok in Hdata; [|apply unique_NoDup|intros m _ []].
  destruct Hdata as (stats & HF & Hv). simpl in Hv. rewrite Hv.
  assert (Hin : In (month r) (unique (map month (filter is_merged (rows df))))).
  { apply unique_In, in_map, filter_In. auto. }
  destruct (Forall2_In_left _ _ _ HF _ Hin) as (s & Hs & _).
  destruct stats as [|s0 stats]; [contradiction|].
  unfold sort_values.
  rewrite (DataFrame_of_records_label stats_keys s0 stats "month")
    by (unfold stats_keys; simpl; auto).
  eauto.
Qed.

End AggregatorReturns.

(** Every table the normalizer returns that holds a merged record is
    aggregated without failure. *)
Lemma pipeline_returns {RT : Runtime} (prs : list Raw.t)
    (cutoff_date end_date : option datetime) (tz : timezone)
    (df : DataFrame (pr_data datetime)) :
  process_pr_data prs cutoff_date end_date tz = Ok df ->
  (exists r, In r (rows df) /\ time_to_merge_days r <> None) ->
  returns (calculate_monthly_statistics df).
Proof.
  intros H Hr.
  destruct (process_pr_data_columns _ _ _ _ _ H) as [Hbase Hdiff].
  apply calculate_monthly_statistics_returns; try exact Hr;
    try (apply Hbase; unfold base_keys; simpl; tauto).
  intros Htc.
  apply (Hdiff "total_changes"%string) in Htc; [|unfold diff_keys; simpl; tauto].
  apply (Hdiff "changed_files"%string); [unfold diff_keys; simpl; tauto | exact Htc].
Qed.

(** ** The median *)

Lemma Zleb_total (a b : Z) : (a <=? b) = true \/ (b <=? a) = true.
Proof. rewrite !Z.leb_le. lia. Qed.

Lemma Zleb_trans (a b c : Z) :
  (a <=? b) = true -> (b <=? c) = true -> (a <=? c) = true.
Proof. rewrite !Z.leb_le. lia. Qed.

Lemma StronglySorted_impl {A : Type} (P Q : A -> A -> Prop) (l : list A) :
  (forall a b, P a b -> Q a b) -> StronglySorted P l -> StronglySorted Q l.
Proof.
  intros HPQ. induction 1 as [|a l Hs IH Ha]; constructor.
  - exact IH.
  - eapply Forall_impl; [|exact Ha]. intros b. apply HPQ.
Qed.

Lemma half_of_double (x y : Z) :
  x = y -> (Qred (inject_Z (x + y) / inject_Z 2) == inject_Z x)%Q.
Proof.
  intros <-. rewrite Qred_correct.
  unfold Qeq, Qdiv, Qmult, Qinv, inject_Z. simpl. lia.
Qed.

Lemma half_of_sum (x y : Z) :
  (Qred (inject_Z (x + y) / inject_Z 2) == (inject_Z x + inject_Z y) / inject_Z 2)%Q.
Proof.
  rewrite Qred_correct.
  unfold Qeq, Qdiv, Qmult, Qinv, Qplus, inject_Z. simpl. lia.
Qed.

(** The median of a column is the statistical median of its cells that
    are not missing. *)
Lemma median_spec (cells : list (option Z)) :
  let sorted := sort_by Z.leb (dropna cells) in
  Permutation (dropna cells) sorted /\
  StronglySorted Z.le sorted /\
  (dropna cells = [] -> median cells = None) /\
  (forall k, length (dropna cells) = (2 * k + 1)%nat ->
     exists q, median cells = Some q /\ (q == inject_Z (nth k sorted 0%Z))%Q) /\
  (forall k, length (dropna cells) = (2 * k + 2)%nat ->
     exists q, median cells = Some q /\
       (q == (inject_Z (nth k sorted 0%Z) + inject_Z (nth (k + 1) sorted 0%Z))
             / inject_Z 2)%Q).
Proof.
  intros sorted.
  assert (Hperm : Permutation (dropna cells) sorted) by apply sort_by_perm.
  assert (Hlen : length sorted = length (dropna cells)) by apply sort_by_length.
  split; [exact Hperm|]. split.
  { eapply StronglySorted_impl; [|apply (sort_by_sorted Z.leb Zleb_total Zleb_trans)].
    intros a b. apply Z.leb_le. }
  unfold median. fold sorted. split; [|split].
  - intros E. rewrite E in Hlen. destruct sorted; [reflexivity | discriminate].
  - intros k Hk. rewrite Hk in Hlen.
    destruct sorted as [|x rest] eqn:Es; [simpl in Hlen; lia|].
    rewrite Hlen. eexists. split; [reflexivity|].
    replace ((2 * k + 1 - 1) / 2)%nat with k
      by (apply (Nat.div_unique _ 2 k 0); lia).
    replace ((2 * k + 1) / 2)%nat with k
      by (apply (Nat.div_unique _ 2 k 1); lia).
    apply half_of_double. reflexivity.
  - intros k Hk. rewrite Hk in Hlen.
    destruct sorted as [|x rest] eqn:Es; [simpl in Hlen; lia|].
    rewrite Hlen. eexists. split; [reflexivity|].
    replace ((2 * k + 2 - 1) / 2)%nat with k
      by (apply (Nat.div_unique _ 2 k 1); lia).
    replace ((2 * k + 2) / 2)%nat with (k + 1)%nat
      by (apply (Nat.div_unique _ 2 (k + 1) 0); lia).
    apply half_of_sum.
Qed.

(** ** Claims about the aggregator *)

Section AggregatorClaims.

Context {T : Type}.

Lemma is_merged_iff (r : pr_data T) :
  is_merged r = true <-> time_to_merge_days r <> None.
Proof.
  unfold is_merged. destruct (time_to_merge_days r); split; congruence.
Qed.

Lemma no_merged_rows (rs : list (pr_data T)) :
  Forall (fun r => time_to_merge_days r = None) rs -> filter is_merged rs = [].
Proof.
  induction 1 as [|r rs H _ IH]; simpl; [reflexivity|].
  unfold is_merged at 1. rewrite H. exact IH.
Qed.

Lemma month_rows_merged_in_month (df : DataFrame (pr_data T)) (m : string) :
  filter (fun r => String.eqb (month r) m) (rows (merged_frame df))
  = merged_in_month df m.
Proof. unfold merged_frame, merged_in_month. simpl. apply filter_filter. Qed.

(** C2 (the code departs from the claim): when no record of the table
    has a merge time, the table without rows included, the aggregator
    does not return an empty monthly table but raises KeyError: for
    [time_to_merge_days] when the table lacks that column (the frame
    built from no record), and otherwise for [month], either at the
    [month] column of the table or, when the table has it, at the sort
    of the monthly frame, which was built from no record and so has no
    column. *)
Theorem calculate_monthly_statistics_no_merged_raises (df : DataFrame (pr_data T)) :
  Forall (fun r => time_to_merge_days r = None) (rows df) ->
  calculate_monthly_statistics df
  = Raise (KeyError (if has_label "time_to_merge_days" (columns df)
                     then "month" else "time_to_merge_days")).
Proof.
  intros H. apply no_merged_rows in H.
  unfold calculate_monthly_statistics, merged_subset, column.
  destruct (has_label "time_to_merge_days" (columns df)); simpl; [|reflexivity].
  unfold notna. rewrite map_map, select_map.
  fold (@is_merged T). rewrite H.
  destruct (has_label "month" (columns df)); reflexivity.
Qed.

(** C7: the aggregator never fails with a division by zero, and in
    every row of the monthly table [avg_prs_per_person] is
    [merged_pr_count / unique_authors] when [unique_authors] is
    positive and 0 when it is 0; it is never negative. The guarded
    quotient itself is defined for all counts. *)
Theorem avg_prs_per_person_guarded (df : DataFrame (pr_data T)) :
  calculate_monthly_statistics df <> Raise ZeroDivisionError /\
  (forall monthly s,
     calculate_monthly_statistics df = Ok monthly -> In s (rows monthly) ->
     ((0 < Stats.unique_authors s)%nat ->
        (Stats.avg_prs_per_person s
         == inject_Z (Z.of_nat (Stats.merged_pr_count s))
            / inject_Z (Z.of_nat (Stats.unique_authors s)))%Q) /\
     (Stats.unique_authors s = 0%nat -> Stats.avg_prs_per_person s = 0%Q) /\
     (0 <= Stats.avg_prs_per_person s)%Q) /\
  (forall count authors, exists q,
     prs_per_person count authors = Ok q /\
     ((0 < authors)%nat ->
        (q == inject_Z (Z.of_nat count) / inject_Z (Z.of_nat authors))%Q) /\
     (authors = 0%nat -> q = 0%Q) /\
     (0 <= q)%Q).
Proof.
  split; [|split].
  - intros H. apply calculate_monthly_statistics_Raise in H.
    destruct H as (k & H). discriminate H.
  - intros monthly s H Hs.
    destruct (monthly_rows df monthly H) as [Hrows _].
    destruct (Hrows s Hs) as [Hstat _].
    apply month_statistics_Ok in Hstat.
    destruct Hstat as (_ & _ & _ & _ & _ & Hq & _).
    destruct (prs_per_person_spec (Stats.merged_pr_count s) (Stats.unique_authors s))
      as (q & Hq' & H1 & H2 & H3).
    rewrite Hq in Hq'. injection Hq' as <-. auto.
  - apply prs_per_person_spec.
Qed.

(** C8: no row of the monthly table has [merged_pr_count] 0 (the count
    is the number of merged records of the row's month), and a month
    is the key of a row exactly when some record of the merged subset
    has that month, with one row a month. *)
Theorem monthly_rows_are_the_merged_months (df : DataFrame (pr_data T))
    (monthly : DataFrame Stats.t) :
  calculate_monthly_statistics df = Ok monthly ->
  (forall s, In s (rows monthly) ->
     Stats.merged_pr_count s <> 0%nat /\
     Stats.merged_pr_count s = length (merged_in_month df (Stats.month s))) /\
  (forall m,
     (exists s, In s (rows monthly) /\ Stats.month s = m) <->
     (exists r, In r (rows df) /\ time_to_merge_days r <> None /\ month r = m)) /\
  NoDup (map Stats.month (rows monthly)).
Proof.
  intros H. destruct (monthly_rows df monthly H) as [Hrows Hback].
  split; [|split].
  - intros s Hs. destruct (Hrows s Hs) as [Hstat (r & Hr & Hmerged & Hmonth)].
    apply month_statistics_Ok in Hstat.
    destruct Hstat as (_ & Hcount & _).
    rewrite month_rows_merged_in_month in Hcount.
    split; [|exact Hcount].
    rewrite Hcount.
    assert (Hin : In r (merged_in_month df (Stats.month s))).
    { apply filter_In. split; [exact Hr|].
      rewrite Hmerged. simpl. apply String.eqb_eq. exact Hmonth. }
    destruct (merged_in_month df (Stats.month s)); [contradiction | discriminate].
  - intros m. split.
    + intros (s & Hs & <-). destruct (Hrows s Hs) as [_ (r & Hr & Hmerged & Hmonth)].
      exists r. rewrite <- is_merged_iff. auto.
    + intros (r & Hr & Hmerged & <-). apply is_merged_iff in Hmerged.
      apply Hback; assumption.
  - apply calculate_monthly_statistics_Ok in H.
    destruct H as (stats & HF & ->).
    eapply Permutation_NoDup.
    + apply Permutation_map. apply sort_by_perm.
    + assert (E : map Stats.month stats
                  = unique (map month (filter is_merged (rows df)))).
      { clear Hrows Hback. induction HF as [|m s ms ss Hms _ IH]; simpl.
        - reflexivity.
        - rewrite IH. f_equal. apply (month_statistics_Ok _ _ _ Hms). }
      rewrite E. apply unique_NoDup.
Qed.

(** C9: the rows of the monthly table are in ascending lexicographic
    order of their month string. *)
Theorem monthly_table_sorted_by_month (df : DataFrame (pr_data T))
    (monthly : DataFrame Stats.t) :
  calculate_monthly_statistics df = Ok monthly ->
  StronglySorted month_le (rows monthly).
Proof.
  intros H. apply calculate_monthly_statistics_Ok in H.
  destruct H as (stats & _ & ->).
  apply (sort_by_sorted (fun a b => String.leb (Stats.month a) (Stats.month b))).
  - intros a b. apply string_leb_total.
  - intros a b c. apply string_leb_trans.
Qed.

(** C10: the median of a column is the statistical median of its
    non-missing cells: with the cells sorted, the middle one for an odd
    count and the mean of the two middle ones for an even count, so
    that the median of 10, 20, 30, 40 is 25 and that of 10, 20, 30 is
    20. A row of the monthly table carries the two median fields
    exactly when the table has the [total_changes] column, and they
    are the medians of [total_changes] and [changed_files] over the
    merged records of the row's month. *)
Theorem medians_of_the_merged_month (df : DataFrame (pr_data T)) :
  (forall cells,
     let sorted := sort_by Z.leb (dropna cells) in
     Permutation (dropna cells) sorted /\
     StronglySorted Z.le sorted /\
     (dropna cells = [] -> median cells = None) /\
     (forall k, length (dropna cells) = (2 * k + 1)%nat ->
        exists q, median cells = Some q /\ (q == inject_Z (nth k sorted 0%Z))%Q) /\
     (forall k, length (dropna cells) = (2 * k + 2)%nat ->
        exists q, median cells = Some q /\
          (q == (inject_Z (nth k sorted 0%Z) + inject_Z (nth (k + 1) sorted 0%Z))
                / inject_Z 2)%Q)) /\
  median [Some 10; Some 20; Some 30; Some 40] = Some 25%Q /\
  median [Some 10; Some 20; Some 30] = Some 20%Q /\
  (forall monthly s,
     calculate_monthly_statistics df = Ok monthly -> In s (rows monthly) ->
     (Stats.medians s <> None <-> has_label "total_changes" (columns df) = true) /\
     forall ms, Stats.medians s = Some ms ->
       median_total_changes ms
       = median (map total_changes_cell (merged_in_month df (Stats.month s))) /\
       median_changed_files ms
       = median (map changed_files_cell (merged_in_month df (Stats.month s)))).
Proof.
  split; [apply median_spec|].
  split; [reflexivity|]. split; [reflexivity|].
  intros monthly s H Hs.
  destruct (monthly_rows df monthly H) as [Hrows _].
  destruct (Hrows s Hs) as [Hstat _].
  apply month_statistics_Ok in Hstat.
  destruct Hstat as (_ & _ & _ & _ & _ & _ & Hmed).
  rewrite month_rows_merged_in_month in Hmed.
  apply month_medians_Ok in Hmed. exact Hmed.
Qed.

End AggregatorClaims.

(** *** The aggregator on the sample inputs *)

(** Two pull requests merged in 2024-01 after 5 and 15 hours, by alice
    and bob, and one merged in 2023-12 after 48 hours. *)
Example calculate_monthly_statistics_sample :
  calculate_monthly_statistics sample_table = Ok sample_monthly /\
  rows sample_monthly
  = [Stats.mk "2023-12" 1 (Some 48%Q) (Some 2%Q) 1 1%Q
              (Some (mkmedians (Some 6%Q) (Some 1%Q)));
     Stats.mk "2024-01" 2 (Some 10%Q) (Some (5 # 12)%Q) 2 1%Q
              (Some (mkmedians (Some (55 # 2)%Q) (Some 3%Q)))].
Proof. vm_compute. split; reflexivity. Qed.

(** The failing inputs of C2: the table with no row and no column, and
    a table whose only record is unmerged. *)
Example calculate_monthly_statistics_empty_table :
  calculate_monthly_statistics empty_table = Raise (KeyError "time_to_merge_days").
Proof. reflexivity. Qed.

Example calculate_monthly_statistics_unmerged_table :
  length (rows unmerged_table) = 1%nat /\
  calculate_monthly_statistics unmerged_table = Raise (KeyError "month").
Proof. vm_compute. split; reflexivity. Qed.

Lemma no_merged_witness :
  Forall (fun r : pr_data datetime => time_to_merge_days r = None)
         (rows unmerged_table) /\
  calculate_monthly_statistics unmerged_table = Raise (KeyError "month").
Proof.
  assert (H : Forall (fun r : pr_data datetime => time_to_merge_days r = None)
                     (rows unmerged_table)).
  { vm_compute. repeat constructor. }
  split; [exact H|].
  apply (calculate_monthly_statistics_no_merged_raises unmerged_table H).
Defined.

Lemma avg_prs_per_person_witness :
  Forall (fun s => (0 <= Stats.avg_prs_per_person s)%Q) (rows sample_monthly).
Proof.
  apply Forall_forall. intros s Hs.
  apply (proj1 (proj2 (avg_prs_per_person_guarded sample_table)) sample_monthly s).
  - vm_compute. reflexivity.
  - exact Hs.
Defined.

Lemma merged_months_witness :
  NoDup (map Stats.month (rows sample_monthly)).
Proof.
  apply (monthly_rows_are_the_merged_months sample_table sample_monthly).
  vm_compute. reflexivity.
Defined.

Lemma sorted_by_month_witness :
  StronglySorted month_le (rows sample_monthly).
Proof.
  apply (monthly_table_sorted_by_month sample_table sample_monthly).
  vm_compute. reflexivity.
Defined.

Lemma medians_witness :
  Forall (fun s =>
            Stats.medians s <> None <->
            has_label "total_changes" (columns sample_table) = true)
         (rows sample_monthly).
Proof.
  apply Forall_forall. intros s Hs.
  apply (proj2 (proj2 (proj2 (medians_of_the_merged_month sample_table)))
           sample_monthly s).
  - vm_compute. reflexivity.
  - exact Hs.
Defined.

(** ** Further properties of the normalizer *)

Section NormalizerExtras.

Context {RT : Runtime}.

(** The entries of a built dict, one by one. *)
Lemma build_pr_data_Ok (pr : Raw.t) (tz : timezone) (created : datetime)
    (d : pr_data string) :
  build_pr_data pr tz created = Ok d ->
  Raw.number pr = Some (number d) /\
  Raw.title pr = Some (title d) /\
  author_login pr = Ok (author d) /\
  Raw.state pr = Some (state d) /\
  merge_fields pr tz created
  = Ok (merged_at d, time_to_merge_hours d, time_to_merge_days d) /\
  diff_fields pr = Ok (diff d) /\
  created_at d = isoformat created /\
  month d = strftime_Y_m created /\
  year d = year_of created.
Proof.
  unfold build_pr_data. intros H.
  bind_inv H. bind_inv H. bind_inv H. bind_inv H. bind_inv H. bind_inv H.
  injection H as <-. simpl.
  apply getitem_Ok in E, E0, E2.
  destruct a3 as [[m h] dd]. repeat split; assumption.
Qed.

Lemma carried_all {T U : Type} (row : pr_data T) (d : pr_data U) :
  carried row = carried d ->
  number row = number d /\ title row = title d /\ author row = author d /\
  merged_at row = merged_at d /\ state row = state d /\ month row = month d /\
  year row = year d /\ time_to_merge_hours row = time_to_merge_hours d /\
  time_to_merge_days row = time_to_merge_days d /\ diff row = diff d.
Proof.
  intros H.
  pose proof (f_equal number H). pose proof (f_equal title H).
  pose proof (f_equal author H). pose proof (f_equal merged_at H).
  pose proof (f_equal state H). pose proof (f_equal month H).
  pose proof (f_equal year H). pose proof (f_equal time_to_merge_hours H).
  pose proof (f_equal time_to_merge_days H). pose proof (f_equal diff H).
  repeat split; assumption.
Qed.

(** Every row of a returned table was built from a record of the input
    that passed the filter. *)
Lemma row_origin (prs : list Raw.t) (cutoff_date end_date : option datetime)
    (tz : timezone) (df : DataFrame (pr_data datetime)) (row : pr_data datetime) :
  process_pr_data prs cutoff_date end_date tz = Ok df ->
  In row (rows df) ->
  exists pr created d,
    In pr prs /\
    created_at_of pr tz = Ok created /\
    date_filter cutoff_date end_date created = Ok true /\
    build_pr_data pr tz created = Ok d /\
    carried row = carried d.
Proof.
  intros H Hin. apply process_pr_data_Ok in H.
  destruct H as (ds & stamps & Hds & _ & _ & _ & Hrows).
  rewrite Hrows in Hin. apply In_assigned in Hin.
  destruct Hin as (d & Hd & Hc).
  pose proof (filter_prs_sound _ _ _ prs ds Hds) as HF.
  rewrite Forall_forall in HF.
  destruct (HF d Hd) as (pr & created & Hpr & Hcr & Hf & Hb).
  exists pr, created, d. auto.
Qed.

Lemma diff_fields_Ok (pr : Raw.t) (s : option diff_stats) :
  diff_fields pr = Ok s ->
  match s with
  | Some st =>
      Raw.additions pr = Some (additions st) /\
      Raw.deletions pr = Some (deletions st) /\
      Raw.changedFiles pr = Some (changed_files st) /\
      total_changes st = additions st + deletions st
  | None => Raw.additions pr = None
  end.
Proof.
  unfold diff_fields. destruct (Raw.additions pr) as [a|]; intros H.
  - bind_inv H. bind_inv H. injection H as <-.
    apply getitem_Ok in E, E0. simpl. auto.
  - injection H as <-. reflexivity.
Qed.

(** X1: The size fields of a row are those of its source record, present
    exactly when the record has the [additions] key, and [total_changes]
    is the sum of additions and deletions. *)
Theorem size_fields_follow_the_record (prs : list Raw.t)
    (cutoff_date end_date : option datetime) (tz : timezone)
    (df : DataFrame (pr_data datetime)) (row : pr_data datetime) :
  process_pr_data prs cutoff_date end_date tz = Ok df ->
  In row (rows df) ->
  exists pr,
    In pr prs /\
    Raw.number pr = Some (number row) /\
    (diff row = None <-> Raw.additions pr = None) /\
    forall st, diff row = Some st ->
      Raw.additions pr = Some (additions st) /\
      Raw.deletions pr = Some (deletions st) /\
      Raw.changedFiles pr = Some (changed_files st) /\
      total_changes st = additions st + deletions st.
Proof.
  intros H Hin.
  destruct (row_origin _ _ _ _ _ _ H Hin) as (pr & created & d & Hpr & _ & _ & Hb & Hc).
  apply carried_all in Hc.
  destruct Hc as (Hn & _ & _ & _ & _ & _ & _ & _ & _ & Hd).
  apply build_pr_data_Ok in Hb.
  destruct Hb as (Hnum & _ & _ & _ & _ & Hdiff & _).
  apply diff_fields_Ok in Hdiff. rewrite <- Hd in Hdiff. rewrite <- Hn in Hnum.
  exists pr. split; [exact Hpr|]. split; [exact Hnum|].
  destruct (diff row) as [st|].
  - split; [split; intros E; [discriminate | destruct Hdiff; congruence]|].
    intros st' E. injection E as <-. exact Hdiff.
  - split; [tauto|]. discriminate.
Qed.

(** A record on which the loop body raises makes the call raise; it is
    the record's own exception when the records before it went through. *)
Lemma failing_record_fails_batch (cutoff_date end_date : option datetime)
    (tz : timezone) (before after : list Raw.t) (pr : Raw.t) (err : exception) :
  normalize_pr cutoff_date end_date tz pr = Raise err ->
  raises (process_pr_data (before ++ pr :: after) cutoff_date end_date tz) /\
  forall ds, filter_prs cutoff_date end_date tz before = Ok ds ->
    process_pr_data (before ++ pr :: after) cutoff_date end_date tz = Raise err.
Proof.
  intros Hn.
  assert (Hb : forall ds, filter_prs cutoff_date end_date tz before = Ok ds ->
    process_pr_data (before ++ pr :: after) cutoff_date end_date tz = Raise err).
  { intros ds Hds. unfold process_pr_data.
    rewrite filter_prs_app, Hds. simpl. rewrite Hn. reflexivity. }
  split; [|exact Hb].
  destruct (filter_prs cutoff_date end_date tz before) as [ds|e] eqn:Hds.
  - exists err. eapply Hb. reflexivity.
  - exists e. unfold process_pr_data. rewrite filter_prs_app, Hds. reflexivity.
Qed.

(** X2: A record in range that has the [additions] key but lacks
    [deletions] or [changedFiles] makes the whole call fail, with the
    KeyError of the first missing key when everything before it went
    through. *)
Theorem partial_size_fields_fail_batch (cutoff_date end_date : option datetime)
    (tz : timezone) (before after : list Raw.t) (pr : Raw.t)
    (created : datetime) (a : Z) :
  created_at_of pr tz = Ok created ->
  date_filter cutoff_date end_date created = Ok true ->
  Raw.additions pr = Some a ->
  Raw.deletions pr = None \/ Raw.changedFiles pr = None ->
  raises (process_pr_data (before ++ pr :: after) cutoff_date end_date tz) /\
  forall ds n t login s mf,
    filter_prs cutoff_date end_date tz before = Ok ds ->
    Raw.number pr = Some n -> Raw.title pr = Some t ->
    author_login pr = Ok login -> Raw.state pr = Some s ->
    merge_fields pr tz created = Ok mf ->
    process_pr_data (before ++ pr :: after) cutoff_date end_date tz
    = Raise (KeyError match Raw.deletions pr with
                      | None => "deletions"
                      | Some _ => "changedFiles"
                      end).
Proof.
  intros Hc Hf Ha Hmissing.
  assert (Hd : diff_fields pr
               = Raise (KeyError match Raw.deletions pr with
                                 | None => "deletions"
                                 | Some _ => "changedFiles"
                                 end)).
  { unfold diff_fields. rewrite Ha.
    destruct (Raw.deletions pr); simpl; [|reflexivity].
    destruct Hmissing as [Hm | Hm]; [discriminate|]. rewrite Hm. reflexivity. }
  assert (Hn : forall e, build_pr_data pr tz created = Raise e ->
               normalize_pr cutoff_date end_date tz pr = Raise e).
  { intros e He. unfold normalize_pr. rewrite Hc. simpl. rewrite Hf. simpl.
    rewrite He. reflexivity. }
  split.
  - destruct (build_pr_data pr tz created) as [d|e] eqn:Hb.
    + apply build_pr_data_Ok in Hb. destruct Hb as (_ & _ & _ & _ & _ & Hb & _).
      congruence.
    + apply (failing_record_fails_batch _ _ _ before after pr e). apply Hn. reflexivity.
  - intros ds n t login s mf Hds Hnum Ht Hl Hs Hmf.
    apply (failing_record_fails_batch _ _ _ before after pr) with (ds := ds);
      [|exact Hds].
    apply Hn. unfold build_pr_data.
    rewrite Hnum, Ht, Hl, Hs, Hmf, Hd. reflexivity.
Qed.

(** X3: Fail fast: a record whose [createdAt] does not parse makes the whole
    call fail, whatever the bounds; with ValueError when the records
    before it went through. *)
Theorem unparseable_createdAt_fails_batch (cutoff_date end_date : option datetime)
    (tz : timezone) (before after : list Raw.t) (pr : Raw.t) (s : string) :
  Raw.createdAt pr = Some s ->
  fromisoformat (replace "Z" "+00:00" s) = None ->
  raises (process_pr_data (before ++ pr :: after) cutoff_date end_date tz) /\
  forall ds, filter_prs cutoff_date end_date tz before = Ok ds ->
    process_pr_data (before ++ pr :: after) cutoff_date end_date tz
    = Raise (ValueError "Invalid isoformat string").
Proof.
  intros Hs Hp. apply failing_record_fails_batch.
  unfold normalize_pr, created_at_of, parse_instant.
  rewrite Hs. simpl. rewrite Hp. reflexivity.
Qed.

(** With aware bounds the filter never raises on a record whose
    [createdAt] was read. *)
Lemma normalize_pr_dropped (cutoff_date end_date : option datetime)
    (tz : timezone) (pr : Raw.t) :
  aware cutoff_date -> aware end_date ->
  returns (created_at_of pr tz) ->
  kept cutoff_date end_date tz pr = false ->
  normalize_pr cutoff_date end_date tz pr = Ok None.
Proof.
  intros Hc He (created & Hcr) Hk.
  unfold kept in Hk. rewrite Hcr in Hk.
  unfold normalize_pr. rewrite Hcr. simpl.
  rewrite (date_filter_within _ _ tz)
    by (auto; eapply created_at_of_aware; eassumption).
  simpl. rewrite Hk. reflexivity.
Qed.

(** X4: Records outside the range are read for their [createdAt] only:
    when every [createdAt] can be read, dropping the out-of-range
    records beforehand changes nothing, result or failure. *)
Theorem out_of_range_records_are_ignored (cutoff_date end_date : option datetime)
    (tz : timezone) (prs : list Raw.t) :
  aware cutoff_date -> aware end_date ->
  Forall (fun pr => returns (created_at_of pr tz)) prs ->
  process_pr_data prs cutoff_date end_date tz
  = process_pr_data (filter (kept cutoff_date end_date tz) prs)
                    cutoff_date end_date tz.
Proof.
  intros Hc He Hall. unfold process_pr_data. f_equal.
  induction Hall as [|pr prs Hpr _ IH]; simpl; [reflexivity|].
  destruct (kept cutoff_date end_date tz pr) eqn:Hk.
  - simpl. rewrite IH. reflexivity.
  - rewrite (normalize_pr_dropped _ _ _ _ Hc He Hpr Hk). simpl.
    rewrite IH.
    destruct (filter_prs cutoff_date end_date tz
                (filter (kept cutoff_date end_date tz) prs)); reflexivity.
Qed.

Lemma astimezone_instant (dt out : datetime) (tz : timezone) :
  astimezone dt tz = Ok out ->
  instant out
  = wall dt - match tzinfo dt with
              | Some z => utcoffset z
              | None => local_utcoffset (wall dt)
              end.
Proof.
  unfold astimezone, in_datetime_range. intros H.
  bind_inv H. bind_inv H. injection H as <-.
  destruct (_ && _) in E; [|discriminate]. injection E as <-.
  destruct (_ && _) in E0; [|discriminate]. injection E0 as <-.
  unfold instant, utc_of. simpl. lia.
Qed.

(** The instant read from a timestamp does not depend on the zone it is
    converted to. *)
Lemma parse_instant_zone (s : string) (tz1 tz2 : timezone) (a b : datetime) :
  parse_instant s tz1 = Ok a -> parse_instant s tz2 = Ok b ->
  instant a = instant b.
Proof.
  unfold parse_instant. destruct (fromisoformat _) as [dt|]; [|discriminate].
  intros Ha Hb. apply astimezone_instant in Ha, Hb. congruence.
Qed.

Lemma dt_sub_instant (a b : datetime) (tz : timezone) (delta : Z) :
  tzinfo a = Some tz -> tzinfo b = Some tz ->
  dt_sub a b = Ok delta -> delta = instant a - instant b.
Proof.
  unfold dt_sub, instant. intros -> ->. intros H. injection H as <-. reflexivity.
Qed.

Lemma merge_fields_zone (pr : Raw.t) (tz1 tz2 : timezone) (c1 c2 : datetime)
    (m1 m2 : option string) (h1 h2 d1 d2 : option Q) :
  created_at_of pr tz1 = Ok c1 -> created_at_of pr tz2 = Ok c2 ->
  merge_fields pr tz1 c1 = Ok (m1, h1, d1) ->
  merge_fields pr tz2 c2 = Ok (m2, h2, d2) ->
  h1 = h2 /\ d1 = d2.
Proof.
  intros Hc1 Hc2. unfold merge_fields.
  destruct (Raw.mergedAt pr) as [m|]; simpl; [|discriminate].
  destruct (mergedAt_truthy m) eqn:Hm.
  - destruct m as [s|]; [|discriminate]. simpl.
    intros H1 H2. bind_inv H1. bind_inv H1. bind_inv H2. bind_inv H2.
    injection H1 as _ <- <-. injection H2 as _ <- <-.
    assert (E' : a0 = a2).
    { apply (dt_sub_instant _ _ tz1) in E0;
        [|eapply parse_instant_aware; eassumption
         |eapply created_at_of_aware; eassumption].
      apply (dt_sub_instant _ _ tz2) in E2;
        [|eapply parse_instant_aware; eassumption
         |eapply created_at_of_aware; eassumption].
      rewrite E0, E2.
      rewrite (parse_instant_zone _ _ _ _ _ E E1).
      unfold created_at_of in Hc1, Hc2.
      destruct (Raw.createdAt pr) as [cs|]; [|discriminate].
      simpl in Hc1, Hc2.
      rewrite (parse_instant_zone _ _ _ _ _ Hc1 Hc2). reflexivity. }
    subst. auto.
  - intros H1 H2. injection H1 as _ <- <-. injection H2 as _ <- <-. auto.
Qed.

(** X5: The merge latency of a record does not depend on the zone (nor on
    the bounds): normalized in two zones, a record gets the same
    [time_to_merge_hours] and [time_to_merge_days], and the same number,
    title, author, state and size fields. *)
Theorem merge_latency_is_zone_independent (pr : Raw.t)
    (c1 e1 c2 e2 : option datetime) (tz1 tz2 : timezone)
    (d1 d2 : pr_data string) :
  normalize_pr c1 e1 tz1 pr = Ok (Some d1) ->
  normalize_pr c2 e2 tz2 pr = Ok (Some d2) ->
  time_to_merge_hours d1 = time_to_merge_hours d2 /\
  time_to_merge_days d1 = time_to_merge_days d2 /\
  number d1 = number d2 /\ title d1 = title d2 /\ author d1 = author d2 /\
  state d1 = state d2 /\ diff d1 = diff d2.
Proof.
  intros H1 H2.
  apply normalize_pr_Some in H1, H2.
  destruct H1 as (cr1 & Hc1 & _ & Hb1). destruct H2 as (cr2 & Hc2 & _ & Hb2).
  apply build_pr_data_Ok in Hb1, Hb2.
  destruct Hb1 as (N1 & T1 & A1 & S1 & M1 & D1 & _).
  destruct Hb2 as (N2 & T2 & A2 & S2 & M2 & D2 & _).
  destruct (merge_fields_zone _ _ _ _ _ _ _ _ _ _ _ Hc1 Hc2 M1 M2) as [Hh Hd].
  repeat split; congruence.
Qed.

End NormalizerExtras.

(** ** Further properties of the aggregator *)

Lemma list_sum_Permutation (l1 l2 : list nat) :
  Permutation l1 l2 -> list_sum l1 = list_sum l2.
Proof.
  induction 1; simpl; lia.
Qed.

Lemma unique_length_le (values : list string) :
  (length (unique values) <= length values)%nat.
Proof.
  induction values as [|v rest IH]; simpl; [lia|].
  pose proof (filter_length_le (fun w => negb (String.eqb w v)) (unique rest)).
  lia.
Qed.

Lemma nunique_bounds (values : list string) :
  values <> [] -> (1 <= nunique values <= length values)%nat.
Proof.
  intros H. unfold nunique. split; [|apply unique_length_le].
  destruct values as [|v rest]; [congruence|]. simpl. lia.
Qed.

Section AggregatorExtras.

Context {T : Type}.

(** How many times [x] is counted among [ms]. *)
Lemma count_once (x : string) (ms : list string) :
  NoDup ms -> In x ms ->
  list_sum (map (fun m => if String.eqb x m then 1%nat else 0%nat) ms) = 1%nat.
Proof.
  induction 1 as [|m ms Hm Hnd IH]; simpl; intros Hin; [contradiction|].
  destruct (String.eqb x m) eqn:E.
  - apply String.eqb_eq in E. subst m.
    assert (Z0 : list_sum (map (fun m => if String.eqb x m then 1%nat else 0%nat) ms)
                 = 0%nat).
    { clear IH Hin Hnd. induction ms as [|m ms IH]; simpl; [reflexivity|].
      destruct (String.eqb x m) eqn:E.
      - apply String.eqb_eq in E. subst. exfalso. apply Hm. now left.
      - apply IH. intros H. apply Hm. now right. }
    lia.
  - destruct Hin as [-> | Hin]; [rewrite String.eqb_refl in E; discriminate|].
    rewrite (IH Hin). reflexivity.
Qed.

(** Splitting a list of records by month loses and repeats nothing. *)
Lemma partition_by_month (rs : list (pr_data T)) (ms : list string) :
  NoDup ms -> (forall r, In r rs -> In (month r) ms) ->
  list_sum (map (fun m => length (filter (fun r => String.eqb (month r) m) rs)) ms)
  = length rs.
Proof.
  intros Hnd. induction rs as [|r rs IH]; intros Hcover.
  - clear Hnd Hcover. induction ms as [|m ms IHm]; simpl; [reflexivity | exact IHm].
  - assert (Hsplit : forall ms',
      list_sum (map (fun m => length (filter (fun r0 => String.eqb (month r0) m)
                                             (r :: rs))) ms')
      = (list_sum (map (fun m => if String.eqb (month r) m then 1 else 0) ms')
         + list_sum (map (fun m => length (filter (fun r0 => String.eqb (month r0) m)
                                                  rs)) ms'))%nat).
    { induction ms' as [|m ms' IH']; simpl; [reflexivity|].
      simpl in IH'. rewrite IH'.
      destruct (String.eqb (month r) m); simpl; lia. }
    rewrite Hsplit, IH by (intros r' Hr'; apply Hcover; now right).
    rewrite count_once by (auto; apply Hcover; now left).
    reflexivity.
Qed.

(** X6: The merged records are distributed over the rows of the monthly
    table: the counts of the rows add up to the number of records that
    have a merge time. *)
Theorem merged_counts_add_up (df : DataFrame (pr_data T))
    (monthly : DataFrame Stats.t) :
  calculate_monthly_statistics df = Ok monthly ->
  list_sum (map Stats.merged_pr_count (rows monthly))
  = length (filter is_merged (rows df)).
Proof.
  intros H. apply calculate_monthly_statistics_Ok in H.
  destruct H as (stats & HF & ->).
  rewrite <- (list_sum_Permutation _ _
                (Permutation_map Stats.merged_pr_count (sort_by_perm _ stats))).
  assert (E : map Stats.merged_pr_count stats
              = map (fun m => length (filter (fun r => String.eqb (month r) m)
                                             (filter is_merged (rows df))))
                    (unique (map month (filter is_merged (rows df))))).
  { induction HF as [|m s ms ss Hms _ IH]; simpl; [reflexivity|].
    rewrite IH. f_equal.
    apply month_statistics_Ok in Hms. apply Hms. }
  rewrite E. apply partition_by_month.
  - apply unique_NoDup.
  - intros r Hr. apply unique_In, in_map. exact Hr.
Qed.

(** X7: In every row of the monthly table there is at least one author and
    no more authors than merged pull requests, so that
    [avg_prs_per_person] is at least 1. *)
Theorem authors_between_one_and_count (df : DataFrame (pr_data T))
    (monthly : DataFrame Stats.t) (s : Stats.t) :
  calculate_monthly_statistics df = Ok monthly ->
  In s (rows monthly) ->
  (1 <= Stats.unique_authors s <= Stats.merged_pr_count s)%nat /\
  (1 <= Stats.avg_prs_per_person s)%Q.
Proof.
  intros H Hs.
  destruct (monthly_rows df monthly H) as [Hrows _].
  destruct (Hrows s Hs) as [Hstat (r & Hr & Hmerged & Hmonth)].
  apply month_statistics_Ok in Hstat.
  destruct Hstat as (_ & Hcount & _ & _ & Hauthors & Hq & _).
  assert (Hin : In r (filter (fun r => String.eqb (month r) (Stats.month s))
                             (rows (merged_frame df)))).
  { apply filter_In. split.
    - simpl. apply filter_In. auto.
    - apply String.eqb_eq. exact Hmonth. }
  assert (Hb : (1 <= Stats.unique_authors s <= Stats.merged_pr_count s)%nat).
  { rewrite Hauthors, Hcount.
    match goal with
    | |- (1 <= nunique ?l <= _)%nat =>
        assert (Hne : l <> [])
          by (intros E; apply (in_map author) in Hin; rewrite E in Hin;
              contradiction);
        pose proof (nunique_bounds l Hne) as Hb'
    end.
    rewrite length_map in Hb'. exact Hb'. }
  split; [exact Hb|].
  destruct (prs_per_person_spec (Stats.merged_pr_count s) (Stats.unique_authors s))
    as (q & Hq' & Hpos & _).
  rewrite Hq in Hq'. injection Hq' as <-.
  rewrite Hpos by lia. apply Qle_shift_div_l.
  - unfold Qlt. simpl. lia.
  - rewrite Qmult_1_l. unfold Qle. simpl. lia.
Qed.

Lemma merged_subset_eq (d : DataFrame (pr_data T)) :
  merged_subset d
  = if has_label "time_to_merge_days" (columns d)
    then Ok (merged_frame d)
    else Raise (KeyError "time_to_merge_days").
Proof.
  unfold merged_subset, column.
  destruct (has_label "time_to_merge_days" (columns d)); [|reflexivity].
  simpl. rewrite boolean_index_notna. reflexivity.
Qed.

(** X8: Records without a merge time contribute nothing: the aggregator
    gives the same result, or the same failure, on the table and on its
    merged subset. *)
Theorem unmerged_records_contribute_nothing (df : DataFrame (pr_data T)) :
  calculate_monthly_statistics df
  = calculate_monthly_statistics (merged_frame df).
Proof.
  assert (E : merged_frame (merged_frame df) = merged_frame df).
  { unfold merged_frame. simpl. f_equal.
    rewrite filter_filter. apply filter_ext. intros r.
    destruct (is_merged r); reflexivity. }
  unfold calculate_monthly_statistics.
  rewrite (merged_subset_eq df), (merged_subset_eq (merged_frame df)), E.
  reflexivity.
Qed.

(** Without a merged record there is no monthly table. *)
Lemma no_merged_no_table (df : DataFrame (pr_data T)) (monthly : DataFrame Stats.t) :
  calculate_monthly_statistics df = Ok monthly ->
  exists r, In r (rows df) /\ time_to_merge_days r <> None.
Proof.
  intros H.
  destruct (filter is_merged (rows df)) as [|r rs] eqn:E.
  - exfalso. revert H.
    unfold calculate_monthly_statistics. rewrite merged_subset_eq.
    destruct (has_label "time_to_merge_days" (columns df)); [|discriminate].
    unfold merged_frame, column. rewrite E. simpl.
    destruct (has_label "month" (columns df)); discriminate.
  - assert (Hin : In r (filter is_merged (rows df))) by (rewrite E; now left).
    apply filter_In in Hin. destruct Hin as [Hin Hm].
    exists r. split; [exact Hin|].
    unfold is_merged in Hm. destruct (time_to_merge_days r); congruence.
Qed.

End AggregatorExtras.

(** ** The order of the rows *)










Section RowOrder.

Context {T : Type}.
Variables df1 df2 : DataFrame (pr_data T).
Hypothesis same_columns : columns df1 = columns df2.
Hypothesis same_rows : Permutation (rows df1) (rows df2).








End RowOrder.

(** ** The normalizer followed by the aggregator *)

Lemma dropna_length {A : Type} (cells : list (option A)) :
  Forall (fun c => c <> None) cells -> length (dropna cells) = length cells.
Proof.
  induction 1 as [|c cells Hc _ IH]; simpl; [reflexivity|].
  destruct c; [simpl; congruence | congruence].
Qed.

Section PipelineExtras.

Context {RT : Runtime}.
Variables (cutoff_date end_date : option datetime) (tz : timezone).
Variables (prs : list Raw.t) (df : DataFrame (pr_data datetime)).
Hypothesis normalized : process_pr_data prs cutoff_date end_date tz = Ok df.

Lemma merge_fields_together (pr : Raw.t) (created : datetime)
    (m : option string) (h d : option Q) :
  merge_fields pr tz created = Ok (m, h, d) ->
  (d <> None -> h <> None) /\ (h <> None -> m <> None).
Proof.
  unfold merge_fields. intros H. bind_inv H.
  destruct (mergedAt_truthy a).
  - bind_inv H. bind_inv H. injection H as <- <- <-. split; discriminate.
  - injection H as <- <- <-. split; congruence.
Qed.

(** In a table of the normalizer a row with merge days has merge hours. *)
Lemma merged_rows_have_hours (row : pr_data datetime) :
  In row (rows df) ->
  time_to_merge_days row <> None -> time_to_merge_hours row <> None.
Proof.
  intros Hin.
  destruct (row_origin _ _ _ _ _ _ normalized Hin)
    as (pr & created & d & _ & _ & _ & Hb & Hc).
  apply carried_all in Hc.
  destruct Hc as (_ & _ & _ & _ & _ & _ & _ & -> & -> & _).
  apply build_pr_data_Ok in Hb. destruct Hb as (_ & _ & _ & _ & Hm & _).
  apply merge_fields_together in Hm. apply Hm.
Qed.

(** X10: A table of the normalizer is aggregated without failure exactly
    when one of its rows has a merge time. *)
Theorem aggregation_returns_iff_merged :
  returns (calculate_monthly_statistics df) <->
  exists r, In r (rows df) /\ time_to_merge_days r <> None.
Proof.
  split.
  - intros (monthly & H). eapply no_merged_no_table. exact H.
  - apply (pipeline_returns prs cutoff_date end_date tz df normalized).
Qed.

(** X11: For a table of the normalizer the averages of a month are never
    missing: [avg_time_to_merge_hours] is the sum of the merge hours of
    the month's merged records divided by their number, and
    [avg_time_to_merge_days] is that average divided by 24. *)
Theorem monthly_averages (monthly : DataFrame Stats.t) (s : Stats.t) :
  calculate_monthly_statistics df = Ok monthly ->
  In s (rows monthly) ->
  exists h d,
    Stats.avg_time_to_merge_hours s = Some h /\
    Stats.avg_time_to_merge_days s = Some d /\
    (h == Qsum (dropna (map time_to_merge_hours
                            (merged_in_month df (Stats.month s))))
          / inject_Z (Z.of_nat (Stats.merged_pr_count s)))%Q /\
    (d == h / inject_Z 24)%Q.
Proof.
  intros H Hs.
  destruct (monthly_rows df monthly H) as [Hrows _].
  destruct (Hrows s Hs) as [Hstat (r & Hr & Hmerged & Hmonth)].
  apply month_statistics_Ok in Hstat.
  destruct Hstat as (_ & Hcount & Hh & Hd & _).
  rewrite month_rows_merged_in_month in Hcount, Hh, Hd.
  set (rs := merged_in_month df (Stats.month s)) in *.
  assert (Hall : Forall (fun c : option Q => c <> None) (map time_to_merge_hours rs)).
  { apply Forall_forall. intros c Hc. apply in_map_iff in Hc.
    destruct Hc as (row & <- & Hrow).
    apply filter_In in Hrow. destruct Hrow as [Hrow Hb].
    apply andb_true_iff in Hb. destruct Hb as [Hb _].
    apply merged_rows_have_hours; [exact Hrow|].
    unfold is_merged in Hb. destruct (time_to_merge_days row); congruence. }
  assert (Hlen : length (dropna (map time_to_merge_hours rs)) = Stats.merged_pr_count s).
  { rewrite dropna_length by exact Hall. rewrite length_map. symmetry. exact Hcount. }
  assert (Hin : In r rs).
  { apply filter_In. split; [exact Hr|].
    rewrite Hmerged. simpl. apply String.eqb_eq. exact Hmonth. }
  unfold mean in Hh, Hd.
  destruct (dropna (map time_to_merge_hours rs)) as [|x xs] eqn:E.
  - exfalso. simpl in Hlen. rewrite <- Hlen in Hcount.
    destruct rs; [contradiction | discriminate].
  - eexists. eexists. split; [exact Hh|]. split; [exact Hd|]. split.
    + rewrite Qred_correct, Hlen. reflexivity.
    + unfold fdiv. apply Qred_correct.
Qed.

End PipelineExtras.

(** ** The acquisition client *)

Lemma plus_loop_spec (member : ascii -> bool) (k : nat -> string -> bool)
    (s : string) :
  forall pos,
    plus_loop member k pos s = true <->
    exists pre post,
      s = (pre ++ post)%string /\ pre <> EmptyString /\
      string_forall member pre = true /\
      k (pos + String.length pre)%nat post = true.
Proof.
  induction s as [|c rest IH]; intros pos; simpl.
  - split; [discriminate|].
    intros (pre & post & E & Hne & _). destruct pre; [congruence | discriminate].
  - rewrite andb_true_iff, orb_true_iff, IH. split.
    + intros [Hc [(pre & post & -> & Hne & Hall & Hk) | Hk]].
      * exists (String c pre), post. simpl. rewrite Hc, Hall.
        repeat split; try discriminate.
        replace (pos + S (String.length pre))%nat
          with (S pos + String.length pre)%nat by lia. exact Hk.
      * exists (String c EmptyString), rest. simpl. rewrite Hc.
        repeat split; try discriminate.
        replace (pos + 1)%nat with (S pos) by lia. exact Hk.
    + intros (pre & post & E & Hne & Hall & Hk).
      destruct pre as [|c' pre]; [congruence|].
      simpl in E, Hall, Hk. injection E as <- ->.
      apply andb_true_iff in Hall. destruct Hall as [Hc Hall].
      split; [exact Hc|].
      destruct pre as [|c'' pre].
      * right. simpl in Hk. replace (S pos) with (pos + 1)%nat by lia. exact Hk.
      * left. exists (String c'' pre), post.
        repeat split; try discriminate; [exact Hall|].
        replace (S pos + String.length (String c'' pre))%nat
          with (pos + S (String.length (String c'' pre)))%nat by lia.
        exact Hk.
Qed.

Lemma at_dollar_spec (s : string) :
  at_dollar s = true <-> s = EmptyString \/ s = String newline EmptyString.
Proof.
  destruct s as [|c [|c' s]]; simpl.
  - tauto.
  - rewrite Ascii.eqb_eq. split.
    + intros ->. now right.
    + intros [H | H]; [discriminate | congruence].
  - split; [discriminate | intros [H | H]; discriminate].
Qed.

(** X12: The identifiers that pass validation: a non-empty owner of letters,
    digits, [_] and [-], a slash, a non-empty name of letters, digits,
    [_], [.] and [-], and nothing more but for one newline at the very
    end, which [$] lets through. *)
Theorem valid_repo_shape (repo : string) :
  validate_repo_format repo = Ok tt <->
  exists owner name tail,
    repo = (owner ++ "/" ++ name ++ tail)%string /\
    owner <> EmptyString /\ string_forall owner_char owner = true /\
    name <> EmptyString /\ string_forall name_char name = true /\
    (tail = EmptyString \/ tail = String newline EmptyString).
Proof.
  unfold validate_repo_format.
  assert (Hm : re_match repo_pattern repo = true <->
    exists owner name tail,
      repo = (owner ++ "/" ++ name ++ tail)%string /\
      owner <> EmptyString /\ string_forall owner_char owner = true /\
      name <> EmptyString /\ string_forall name_char name = true /\
      (tail = EmptyString \/ tail = String newline EmptyString)).
  { unfold re_match, repo_pattern. simpl. rewrite plus_loop_spec. split.
    - intros (owner & rest & -> & Hne & Hall & Hk).
      destruct rest as [|c rest]; [discriminate|].
      apply andb_true_iff in Hk. destruct Hk as [Hc Hk].
      apply Ascii.eqb_eq in Hc. subst c.
      apply plus_loop_spec in Hk.
      destruct Hk as (name & tail & -> & Hne' & Hall' & Hd).
      rewrite andb_true_r in Hd. apply at_dollar_spec in Hd.
      exists owner, name, tail. auto 10.
    - intros (owner & name & tail & -> & Hne & Hall & Hne' & Hall' & Hd).
      exists owner, ("/" ++ name ++ tail)%string.
      repeat split; try assumption.
      simpl. apply plus_loop_spec.
      exists name, tail. repeat split; try assumption.
      rewrite andb_true_r. apply at_dollar_spec. exact Hd. }
  destruct (re_match repo_pattern repo).
  - split; [intros _; apply Hm; reflexivity | reflexivity].
  - split; [discriminate|]. intros H. apply Hm in H. discriminate.
Qed.

Lemma has_excluded_label_spec (names : list string) (pr : Fetched.t) :
  has_excluded_label names pr = true <->
  exists ls label_obj name,
    Fetched.labels pr = Some ls /\ In label_obj ls /\
    dict_get label_obj "name" = Some name /\ In name names.
Proof.
  unfold has_excluded_label, label_excluded. rewrite existsb_exists. split.
  - intros (obj & Hin & H).
    destruct (Fetched.labels pr) as [ls|]; [|contradiction].
    destruct (dict_get obj "name") as [name|] eqn:E; [|discriminate].
    apply existsb_exists in H. destruct H as (n & Hn & Heq).
    apply String.eqb_eq in Heq. subst n.
    exists ls, obj, name. auto.
  - intros (ls & obj & name & -> & Hin & E & Hn).
    exists obj. split; [exact Hin|]. rewrite E.
    apply existsb_exists. exists name. split; [exact Hn | apply String.eqb_refl].
Qed.

Lemma exclude_by_label_filter (exclude_labels : option (list string))
    (data : list Fetched.t) :
  exclude_by_label exclude_labels data
  = filter (fun pr => negb (has_excluded_label (excluded_names exclude_labels) pr))
           data.
Proof.
  assert (Hnone : forall pr, has_excluded_label [] pr = false).
  { intros pr. unfold has_excluded_label.
    induction (match Fetched.labels pr with Some ls => ls | None => [] end)
      as [|obj ls IH]; simpl; [reflexivity|].
    rewrite IH. unfold label_excluded.
    destruct (dict_get obj "name"); reflexivity. }
  assert (Hall : forall l : list Fetched.t,
            filter (fun pr => negb (has_excluded_label [] pr)) l = l).
  { induction l as [|pr l IH]; simpl; [reflexivity|].
    rewrite Hnone, IH. reflexivity. }
  destruct exclude_labels as [[|n names]|]; simpl; try reflexivity;
    symmetry; apply Hall.
Qed.

Section FetcherExtras.

Variable run : list string -> Z -> run_outcome.
Variable json_loads : string -> option (list Fetched.t).

Lemma fetch_pr_data_Done (repo : string)
    (label : option string) (exclude_labels : option (list string))
    (output_file : option string) (include_diff_stats : bool)
    (limit : Z) (state : string) (timeout : Z) (out : output) :
  fetch_pr_data run json_loads repo label exclude_labels output_file
                include_diff_stats limit state timeout = Done out ->
  validate_repo_format repo = Ok tt /\
  exists stdout stderr data,
    run (gh_command repo label include_diff_stats limit state) timeout
    = Completed 0 stdout stderr /\
    json_loads stdout = Some data /\
    written out
    = filter (fun pr => negb (has_excluded_label (excluded_names exclude_labels) pr))
             data.
Proof.
  unfold fetch_pr_data. intros H.
  destruct (validate_repo_format repo) as [[]|e]; [|discriminate].
  split; [reflexivity|].
  destruct (run _ timeout) as [rc stdout stderr|]; [|discriminate].
  destruct (Z.eqb_spec rc 0) as [->|Hrc]; cbn [negb] in H; [|discriminate].
  destruct (json_loads stdout) as [data|] eqn:Ej; [|discriminate].
  injection H as <-. cbn [written].
  exists stdout, stderr, data.
  rewrite exclude_by_label_filter. auto.
Qed.

(** X13: What a completed fetch went through and what it wrote: the
    repository identifier was valid, [gh] exited with 0 and printed
    records; the file holds these records, in order, without those one
    of whose labels is named in [exclude_labels]. *)
Theorem fetch_writes_the_unexcluded_records (repo : string)
    (label : option string) (exclude_labels : option (list string))
    (output_file : option string) (include_diff_stats : bool)
    (limit : Z) (state : string) (timeout : Z) (out : output) :
  fetch_pr_data run json_loads repo label exclude_labels output_file
                include_diff_stats limit state timeout = Done out ->
  validate_repo_format repo = Ok tt /\
  exists stdout stderr data,
    run (gh_command repo label include_diff_stats limit state) timeout
    = Completed 0 stdout stderr /\
    json_loads stdout = Some data /\
    written out
    = filter (fun pr => negb (has_excluded_label (excluded_names exclude_labels) pr))
             data /\
    forall pr,
      In pr (written out) <->
      In pr data /\
      ~ exists ls label_obj name,
          Fetched.labels pr = Some ls /\ In label_obj ls /\
          dict_get label_obj "name" = Some name /\
          In name (excluded_names exclude_labels).
Proof.
  intros H. apply fetch_pr_data_Done in H.
  destruct H as (Hv & stdout & stderr & data & Hrun & Hj & Hw).
  split; [exact Hv|].
  exists stdout, stderr, data.
  split; [exact Hrun|]. split; [exact Hj|]. split; [exact Hw|].
  intros pr. rewrite Hw. split.
  - intros Hpr. apply filter_In in Hpr. destruct Hpr as [Hin Hpr].
    split; [exact Hin|].
    intros Hex. apply has_excluded_label_spec in Hex.
    rewrite Hex in Hpr. discriminate.
  - intros [Hpr Hno]. apply filter_In. split; [exact Hpr|].
    destruct (has_excluded_label _ pr) eqn:E; [|reflexivity].
    exfalso. apply Hno. apply has_excluded_label_spec. exact E.
Qed.

End FetcherExtras.

(** ** The command line *)

(** The zone [parse_timezone] returns. *)
Lemma parse_timezone_Ok (tz_offset : Z) (tz : timezone) :
  parse_timezone tz_offset = Ok tz -> tz = timezone_hours tz_offset.
Proof.
  unfold parse_timezone, timedelta_hours, make_timezone, timezone_hours.
  destruct (999999999 <? Z.abs (tz_offset / 24)); cbn [bind]; [discriminate|].
  destruct ((- usec_per_day <? tz_offset * usec_per_hour)
            && (tz_offset * usec_per_hour <? usec_per_day)); [|discriminate].
  intros H. injection H as <-. reflexivity.
Qed.

(** X14: The [--timezone] option: an offset of -23 to 23 hours gives the zone
    of that many hours east of UTC; any other integer makes the command
    fail, with ValueError, or OverflowError for an offset no timedelta
    can hold. *)
Theorem parse_timezone_range (tz_offset : Z) :
  (-24 < tz_offset < 24 -> parse_timezone tz_offset = Ok (timezone_hours tz_offset)) /\
  (returns (parse_timezone tz_offset) -> -24 < tz_offset < 24) /\
  (forall e, parse_timezone tz_offset = Raise e ->
     e = OverflowError \/ exists what, e = ValueError what).
Proof.
  pose proof (Z.div_mod tz_offset 24 ltac:(lia)) as Hdm.
  pose proof (Z.mod_pos_bound tz_offset 24 ltac:(lia)) as Hmb.
  assert (Hday : usec_per_day = 86400000000) by reflexivity.
  assert (Hhour : usec_per_hour = 3600000000) by reflexivity.
  unfold parse_timezone, timedelta_hours, make_timezone, timezone_hours.
  destruct (Z.ltb_spec 999999999 (Z.abs (tz_offset / 24))) as [Hbig|Hsmall];
    cbn [bind].
  - split; [|split].
    + intros Hr. exfalso. lia.
    + intros (tz & H). discriminate H.
    + intros e H. injection H as <-. now left.
  - destruct (Z.ltb_spec (- usec_per_day) (tz_offset * usec_per_hour)) as [Hlo|Hlo];
      destruct (Z.ltb_spec (tz_offset * usec_per_hour) usec_per_day) as [Hhi|Hhi];
      cbn [andb]; (split; [|split]);
      try (intros Hr; first [reflexivity | exfalso; lia]);
      try (intros (tz & H); first [discriminate H | lia]);
      try (intros e H; first [discriminate H | injection H as <-; right; eauto]).
Qed.

Section CommandLineExtras.

Context {RT : Runtime}.
Variable strptime_Y_m_d : string -> option (Z * Z * Z).

(** A bound built by the command line is aware, in the zone of the
    command, and stands at 00:00:00 of the day read. *)
Lemma parse_bound_midnight (s : option string) (tz : timezone)
    (bound : option datetime) :
  parse_bound strptime_Y_m_d s tz = Ok bound ->
  aware bound /\
  forall b, bound = Some b ->
    exists str y m d,
      s = Some str /\ strptime_Y_m_d str = Some (y, m, d) /\
      b = midnight y m d tz.
Proof.
  unfold parse_bound. destruct s as [[|c rest]|]; intros H.
  - injection H as <-. split; [intros b Hb | intros b Hb]; discriminate.
  - destruct (strptime_Y_m_d (String c rest)) as [[[y m] d]|] eqn:E; [|discriminate].
    injection H as <-. split.
    + intros b Hb. injection Hb as <-. discriminate.
    + intros b Hb. injection Hb as <-. exists (String c rest), y, m, d. auto.
  - injection H as <-. split; [intros b Hb | intros b Hb]; discriminate.
Qed.

Lemma statistics_for_Ok (prs : list Raw.t) (cutoff_date end_date : option string)
    (tz : timezone) (monthly : DataFrame Stats.t)
    (df : DataFrame (pr_data datetime)) :
  statistics_for strptime_Y_m_d prs cutoff_date end_date tz = Ok (monthly, df) ->
  exists cutoff end_,
    parse_bound strptime_Y_m_d cutoff_date tz = Ok cutoff /\
    parse_bound strptime_Y_m_d end_date tz = Ok end_ /\
    process_pr_data prs cutoff end_ tz = Ok df /\
    calculate_monthly_statistics df = Ok monthly.
Proof.
  unfold statistics_for. intros H.
  bind_inv H. bind_inv H. bind_inv H. bind_inv H. injection H as <- <-.
  eauto 10.
Qed.

(** X15: Through [analyze] the date options are whole days of the zone: the
    table holds, in input order, exactly the records created at or
    after 00:00:00 of the cutoff day and at or before 00:00:00 of the
    end day on the clock of the zone, so that a record created later
    during the end day is left out. *)
Theorem analyze_bounds_are_day_starts (prs : list Raw.t)
    (cutoff_date end_date : option string) (timezone : Z)
    (monthly : DataFrame Stats.t) (df : DataFrame (pr_data datetime)) :
  analyze strptime_Y_m_d prs cutoff_date end_date timezone = Ok (monthly, df) ->
  exists cutoff end_,
    parse_bound strptime_Y_m_d cutoff_date (timezone_hours timezone) = Ok cutoff /\
    parse_bound strptime_Y_m_d end_date (timezone_hours timezone) = Ok end_ /\
    Forall2 (normalized_from (timezone_hours timezone))
            (filter (kept cutoff end_ (timezone_hours timezone)) prs) (rows df) /\
    forall pr created,
      created_at_of pr (timezone_hours timezone) = Ok created ->
      (kept cutoff end_ (timezone_hours timezone) pr = true <->
       (forall str y m d,
          cutoff_date = Some str -> str <> EmptyString ->
          strptime_Y_m_d str = Some (y, m, d) ->
          days_from_civil y m d * usec_per_day <= wall created) /\
       (forall str y m d,
          end_date = Some str -> str <> EmptyString ->
          strptime_Y_m_d str = Some (y, m, d) ->
          wall created <= days_from_civil y m d * usec_per_day)).
Proof.
  unfold analyze. intros H. bind_inv H.
  assert (Htz : a = timezone_hours timezone)
    by (apply parse_timezone_Ok; exact E).
  subst a. set (tz := timezone_hours timezone) in *.
  apply statistics_for_Ok in H.
  destruct H as (cutoff & end_ & Hc & He & Hp & _).
  destruct (parse_bound_midnight _ _ _ Hc) as [Hac Hmc].
  destruct (parse_bound_midnight _ _ _ He) as [Hae Hme].
  exists cutoff, end_. split; [exact Hc|]. split; [exact He|]. split.
  - apply process_pr_data_Ok in Hp.
    destruct Hp as (ds & stamps & Hds & _ & Hlen & _ & ->).
    pose proof (filter_prs_kept _ _ _ prs Hac Hae ds Hds) as HF.
    apply (Forall2_assigned
             (fun pr u => exists created d,
                  created_at_of pr tz = Ok created /\
                  build_pr_data pr tz created = Ok d /\ u = carried d)
             _ _ HF _ Hlen).
  - intros pr created Hcr.
    pose proof (created_at_of_aware _ _ _ Hcr) as Haw.
    unfold kept, within. rewrite Hcr. rewrite andb_true_iff.
    assert (Hi : instant created = wall created - utcoffset tz).
    { unfold instant, utc_of. rewrite Haw. reflexivity. }
    assert (Hmid : forall y m d,
              instant (midnight y m d tz)
              = days_from_civil y m d * usec_per_day - utcoffset tz)
      by reflexivity.
    split.
    + intros [H1 H2]. split.
      * intros str y m d -> Hne Hs.
        unfold parse_bound in Hc. destruct str as [|c rest]; [congruence|].
        rewrite Hs in Hc. injection Hc as <-.
        apply Z.leb_le in H1. rewrite Hmid, Hi in H1. lia.
      * intros str y m d -> Hne Hs.
        unfold parse_bound in He. destruct str as [|c rest]; [congruence|].
        rewrite Hs in He. injection He as <-.
        apply Z.leb_le in H2. rewrite Hmid, Hi in H2. lia.
    + intros [H1 H2]. split.
      * destruct cutoff as [b|]; [|reflexivity].
        destruct (Hmc b eq_refl) as (str & y & m & d & -> & Hs & ->).
        apply Z.leb_le. rewrite Hmid, Hi.
        assert (Hne : str <> EmptyString)
          by (intros ->; simpl in Hc; discriminate).
        specialize (H1 str y m d eq_refl Hne Hs). lia.
      * destruct end_ as [b|]; [|reflexivity].
        destruct (Hme b eq_refl) as (str & y & m & d & -> & Hs & ->).
        apply Z.leb_le. rewrite Hmid, Hi.
        assert (Hne : str <> EmptyString)
          by (intros ->; simpl in He; discriminate).
        specialize (H2 str y m d eq_refl Hne Hs). lia.
Qed.

Variable run : list string -> Z -> run_outcome.
Variable json_loads : string -> option (list Fetched.t).

(** X16: Through [run] no excluded pull request reaches the statistics: every
    row of the table comes from a record that [gh] printed and none of
    whose labels is named in [--exclude-label]. *)
Theorem run_leaves_excluded_labels_out (repo : string) (label : option string)
    (exclude_label : list string) (data_file : string)
    (cutoff_date end_date : option string) (limit : Z) (state : string)
    (timeout : Z) (timezone : Z)
    (monthly : DataFrame Stats.t) (df : DataFrame (pr_data datetime)) :
  run_pipeline strptime_Y_m_d run json_loads repo label exclude_label data_file
               cutoff_date end_date limit state timeout timezone
  = Done (monthly, df) ->
  exists stdout stderr data,
    run (gh_command repo label true limit state) timeout
    = Completed 0 stdout stderr /\
    json_loads stdout = Some data /\
    forall row, In row (rows df) ->
      exists fetched_pr,
        In fetched_pr data /\
        has_excluded_label exclude_label fetched_pr = false /\
        Raw.number (Fetched.record fetched_pr) = Some (number row).
Proof.
  unfold run_pipeline. intros H.
  destruct (parse_timezone timezone) as [tz|]; [|discriminate].
  destruct (fetch_pr_data _ _ _ _ _ _ _ _ _ _) as [out|] eqn:Ef; [|discriminate].
  destruct (statistics_for _ _ _ _ _) as [[m d]|] eqn:Es; [|discriminate].
  injection H as <- <-.
  apply fetch_pr_data_Done in Ef.
  destruct Ef as (_ & stdout & stderr & data & Hrun & Hj & Hw).
  exists stdout, stderr, data. split; [exact Hrun|]. split; [exact Hj|].
  intros row Hrow.
  apply statistics_for_Ok in Es.
  destruct Es as (cutoff & end_ & _ & _ & Hp & _).
  destruct (row_origin _ _ _ _ _ _ Hp Hrow)
    as (pr & created & d0 & Hpr & _ & _ & Hb & Hc).
  apply in_map_iff in Hpr. destruct Hpr as (fp & <- & Hfp).
  rewrite Hw in Hfp. apply filter_In in Hfp.
  destruct Hfp as [Hin Hex]. cbn [excluded_names] in Hex.
  exists fp. split; [exact Hin|]. split.
  - destruct (has_excluded_label exclude_label fp); [discriminate | reflexivity].
  - apply carried_all in Hc. destruct Hc as (-> & _).
    apply build_pr_data_Ok in Hb. apply Hb.
Qed.

End CommandLineExtras.

(** ** Month keys and the calendar *)












Section MonthKeys.

Context {RT : Runtime}.




End MonthKeys.

(** *** The further properties on the sample inputs *)

Lemma size_fields_witness :
  Forall (fun row : pr_data datetime =>
            exists pr, In pr sample_prs /\
                       Raw.number pr = Some (number row) /\
                       (diff row = None <-> Raw.additions pr = None))
         (rows sample_table).
Proof.
  apply Forall_forall. intros row Hrow.
  destruct (size_fields_follow_the_record (RT := reference_runtime) sample_prs
              None None DEFAULT_TIMEZONE sample_table row)
    as (pr & H1 & H2 & H3 & _).
  - vm_compute. reflexivity.
  - exact Hrow.
  - exists pr. split; [exact H1|]. split; [exact H2 | exact H3].
Defined.

Lemma partial_size_fields_witness :
  Raw.additions pr_partial_size = Some 30 /\
  Raw.deletions pr_partial_size = None /\
  raises (process_pr_data (RT := reference_runtime)
            [pr_alice; pr_partial_size; pr_bob] None None DEFAULT_TIMEZONE).
Proof.
  split; [reflexivity|]. split; [reflexivity|].
  apply (proj1 (partial_size_fields_fail_batch (RT := reference_runtime)
                  None None DEFAULT_TIMEZONE [pr_alice] [pr_bob] pr_partial_size
                  (created_in_default_zone pr_partial_size) 30
                  ltac:(vm_compute; reflexivity) ltac:(vm_compute; reflexivity)
                  eq_refl (or_introl eq_refl))).
Defined.

Lemma unparseable_createdAt_witness :
  Raw.createdAt pr_bad_date = Some "yesterday"%string /\
  process_pr_data (RT := reference_runtime) [pr_alice; pr_bad_date; pr_bob]
    sample_cutoff sample_end DEFAULT_TIMEZONE
  = Raise (ValueError "Invalid isoformat string").
Proof.
  split; [reflexivity|].
  refine (proj2 (unparseable_createdAt_fails_batch (RT := reference_runtime)
                   sample_cutoff sample_end DEFAULT_TIMEZONE
                   [pr_alice] [pr_bob] pr_bad_date "yesterday" eq_refl _) [] _).
  - vm_compute. reflexivity.
  - vm_compute. reflexivity.
Defined.

Lemma out_of_range_witness :
  process_pr_data (RT := reference_runtime) sample_prs
    sample_cutoff sample_end DEFAULT_TIMEZONE
  = process_pr_data (RT := reference_runtime)
      (filter (kept (RT := reference_runtime) sample_cutoff sample_end DEFAULT_TIMEZONE)
              sample_prs)
      sample_cutoff sample_end DEFAULT_TIMEZONE.
Proof.
  apply (out_of_range_records_are_ignored (RT := reference_runtime)).
  - intros b Hb. injection Hb as <-. discriminate.
  - intros b Hb. injection Hb as <-. discriminate.
  - repeat constructor; eexists; vm_compute; reflexivity.
Defined.

Lemma merge_latency_witness :
  option_map time_to_merge_hours (normalized_in 9 pr_alice)
  = option_map time_to_merge_hours (normalized_in (-5) pr_alice).
Proof.
  unfold normalized_in.
  destruct (normalize_pr (RT := reference_runtime) None None (timezone_hours 9) pr_alice)
    as [[d1|]|e1] eqn:E1; try (vm_compute in E1; discriminate E1).
  destruct (normalize_pr (RT := reference_runtime) None None (timezone_hours (-5)) pr_alice)
    as [[d2|]|e2] eqn:E2; try (vm_compute in E2; discriminate E2).
  cbn [option_map value_or]. f_equal.
  apply (merge_latency_is_zone_independent (RT := reference_runtime) pr_alice
           None None None None (timezone_hours 9) (timezone_hours (-5)) d1 d2 E1 E2).
Defined.

Lemma merged_counts_witness :
  list_sum (map Stats.merged_pr_count (rows sample_monthly))
  = length (filter is_merged (rows sample_table)).
Proof.
  apply (merged_counts_add_up sample_table sample_monthly).
  vm_compute. reflexivity.
Defined.

Lemma authors_witness :
  Forall (fun s => (1 <= Stats.unique_authors s <= Stats.merged_pr_count s)%nat)
         (rows sample_monthly).
Proof.
  apply Forall_forall. intros s Hs.
  apply (authors_between_one_and_count sample_table sample_monthly s).
  - vm_compute. reflexivity.
  - exact Hs.
Defined.


Lemma aggregation_returns_witness :
  returns (calculate_monthly_statistics sample_table) <->
  exists r, In r (rows sample_table) /\ time_to_merge_days r <> None.
Proof.
  apply (aggregation_returns_iff_merged (RT := reference_runtime)
           None None DEFAULT_TIMEZONE sample_prs sample_table).
  vm_compute. reflexivity.
Defined.

Lemma monthly_averages_witness :
  Forall (fun s => Stats.avg_time_to_merge_hours s <> None /\
                   Stats.avg_time_to_merge_days s <> None)
         (rows sample_monthly).
Proof.
  apply Forall_forall. intros s Hs.
  destruct (monthly_averages (RT := reference_runtime)
              None None DEFAULT_TIMEZONE sample_prs sample_table
              ltac:(vm_compute; reflexivity) sample_monthly s
              ltac:(vm_compute; reflexivity) Hs)
    as (h & d & -> & -> & _).
  split; discriminate.
Defined.

Lemma fetch_witness :
  validate_repo_format "octocat/hello-world" = Ok tt /\
  written sample_output
  = filter (fun pr => negb (has_excluded_label ["dependencies"%string] pr))
           sample_fetched.
Proof.
  destruct (fetch_writes_the_unexcluded_records sample_gh sample_json_loads
              "octocat/hello-world" None (Some ["dependencies"%string])
              (Some "out/pr_data_with_diff.json"%string) true 10000 "merged" 600
              sample_output ltac:(vm_compute; reflexivity))
    as (Hvalid & stdout & stderr & data & _ & Hdata & Hwritten & _).
  split; [exact Hvalid|].
  injection Hdata as <-. exact Hwritten.
Defined.

Lemma analyze_bounds_witness :
  exists cutoff end_,
    parse_bound reference_strptime (Some "2024-01-01"%string) (timezone_hours 9)
    = Ok cutoff /\
    parse_bound reference_strptime (Some "2024-01-20"%string) (timezone_hours 9)
    = Ok end_ /\
    Forall2 (normalized_from (RT := reference_runtime) (timezone_hours 9))
            (filter (kept (RT := reference_runtime) cutoff end_ (timezone_hours 9))
                    sample_prs)
            (rows (snd sample_analysis)).
Proof.
  destruct (analyze_bounds_are_day_starts (RT := reference_runtime)
              reference_strptime sample_prs
              (Some "2024-01-01"%string) (Some "2024-01-20"%string) 9
              (fst sample_analysis) (snd sample_analysis)
              ltac:(vm_compute; reflexivity))
    as (cutoff & end_ & H1 & H2 & H3 & _).
  exists cutoff, end_. split; [exact H1|]. split; [exact H2 | exact H3].
Defined.

Lemma run_witness :
  Forall (fun row : pr_data datetime =>
            exists fetched_pr,
              In fetched_pr sample_fetched /\
              has_excluded_label ["dependencies"%string] fetched_pr = false /\
              Raw.number (Fetched.record fetched_pr) = Some (number row))
         (rows (snd sample_run)).
Proof.
  apply Forall_forall. intros row Hrow.
  destruct (run_leaves_excluded_labels_out (RT := reference_runtime)
              reference_strptime sample_gh sample_json_loads
              "octocat/hello-world" None ["dependencies"%string]
              "out/pr_data_with_diff.json" None None 10000 "merged" 600 9
              (fst sample_run) (snd sample_run) ltac:(vm_compute; reflexivity))
    as (stdout & stderr & data & _ & Hdata & Hrows).
  injection Hdata as <-. exact (Hrows row Hrow).
Defined.

